(** * AgriTech-AI: context budgeting and conversation persistence

    A shallow embedding of the parts of [knowledge_manager.py],
    [database.py] and [telegram_bot.py] that carry the algorithmic
    content of the assistant: the two token-budget trimming routines of
    [KnowledgeManager], the peewee-backed [FileDBManager] and
    [ChatManager], and the turn function [AIResponder.generate_response].

    Python integers are unbounded and are modelled by [Z]; strings by
    [string]; [bytes] by [list Byte.byte]; a peewee table by the list of
    its rows in insertion order.  Exceptions are values of [exn] carried
    by [outcome]. *)

From Stdlib Require Import ZArith List String Ascii Bool Lia.
From Stdlib Require Import Sorting.Sorted Sorting.Permutation.
From Stdlib Require Strings.Byte.
Import ListNotations.

Open Scope string_scope.
Open Scope list_scope.
Open Scope Z_scope.

(** ** Python values and control flow *)

(** The exceptions the modelled code can raise.  [CollaboratorError]
    stands for whatever an external service (vector store, language
    model) raises. *)
Inductive exn : Type :=
| ValueError (msg : string)
| TypeError (msg : string)
| IndexError (msg : string)
| CollaboratorError (msg : string).

(** The outcome of running a piece of code: a value, a raised exception,
    or [Diverge] when a [while] loop was cut by its fuel. *)
Inductive outcome (A : Type) : Type :=
| Ok (a : A)
| Raise (e : exn)
| Diverge.

Arguments Ok {A} a.
Arguments Raise {A} e.
Arguments Diverge {A}.

Definition obind {A B : Type} (c : outcome A) (k : A -> outcome B) : outcome B :=
  match c with
  | Ok a => k a
  | Raise e => Raise e
  | Diverge => Diverge
  end.

Module Py.

(** The line feed character of ["\n"]. *)
Definition LF : string := String (ascii_of_nat 10) EmptyString.

(** [sep.join(parts)]. *)
Definition join (sep : string) (parts : list string) : string :=
  String.concat sep parts.

(** [sum(xs)] on integers. *)
Definition sum (xs : list Z) : Z := fold_left Z.add xs 0.

(** [xs[i]]: a negative index counts from the end; [None] is the
    [IndexError] of an index outside [-len, len). *)
Definition index {A : Type} (xs : list A) (i : Z) : option A :=
  let n := Z.of_nat (List.length xs) in
  if 0 <=? i then nth_error xs (Z.to_nat i)
  else if - n <=? i then nth_error xs (Z.to_nat (n + i))
  else None.

(** [xs[:n]]: a negative bound counts from the end, and bounds outside
    the list are clipped. *)
Definition slice_to {A : Type} (xs : list A) (n : Z) : list A :=
  if 0 <=? n then firstn (Z.to_nat n) xs
  else firstn (Z.to_nat (Z.of_nat (List.length xs) + n)) xs.

(** [bytes(x)] for [x] a bytes-like object or [None]. *)
Definition bytes (x : option (list Byte.byte)) : outcome (list Byte.byte) :=
  match x with
  | Some b => Ok b
  | None => Raise (TypeError "cannot convert 'NoneType' object to bytes")
  end.

(** A [dict] with string keys, as the list of its items in insertion
    order; the keys of a dict are pairwise distinct. *)
Definition dict : Type := list (string * string).

(** [d.get(k)]. *)
Fixpoint dict_get (d : dict) (k : string) : option string :=
  match d with
  | [] => None
  | (k', v) :: d' => if (k' =? k)%string then Some v else dict_get d' k
  end.

(** [d[k] = v]: the value of a present key is replaced where it is, a new
    key goes to the end. *)
Fixpoint dict_set (d : dict) (k v : string) : dict :=
  match d with
  | [] => [(k, v)]
  | (k', v') :: d' =>
      if (k' =? k)%string then (k', v) :: d' else (k', v') :: dict_set d' k v
  end.

(** [d.update(other)]. *)
Definition dict_update (d other : dict) : dict :=
  fold_left (fun d item => dict_set d (fst item) (snd item)) other d.

End Py.

(** ** knowledge_manager.py *)

Module KnowledgeManager.

(** [langchain.schema.Document]. *)
Record Document : Type := {
  page_content : string;
  metadata : list (string * string)
}.

(** [add_metadata_to_docs]: [document.metadata.update(metadata)] on every
    document; the list returned is the list given, with the documents
    updated. *)
Definition add_metadata_to_docs (metadata : Py.dict) (docs : list Document)
  : list Document :=
  map (fun document =>
         {| page_content := page_content document;
            metadata := Py.dict_update (KnowledgeManager.metadata document)
                          metadata |})
    docs.

(** The text that [format_messages] is meant to return for the turns it
    keeps, written out without the joins of the code, to compare with:
    the lines of the turns, oldest first, with one blank line between
    any two of them.  A turn gives its human line, and its assistant line
    too unless only the human lines are wanted. *)
Fixpoint blank_line_separated (lines : list string) : string :=
  match lines with
  | [] => ""
  | line :: rest =>
      match rest with
      | [] => line
      | _ :: _ =>
          (line ++ String "010" (String "010" (blank_line_separated rest)))%string
      end
  end.

Definition turn_lines (human_only : bool) (ai_name : string)
           (turn : string * string) : list string :=
  if human_only then [("Human: " ++ fst turn)%string]
  else [("Human: " ++ fst turn)%string; (ai_name ++ ": " ++ snd turn)%string].

Definition described_text (human_only : bool) (ai_name : string)
           (turns : list (string * string)) : string :=
  blank_line_separated (flat_map (turn_lines human_only ai_name) turns).

Section Manager.

(** [llm.get_num_tokens], the token counter of the model. *)
Variable get_num_tokens : string -> Z.

(** The fields of [self] that the trimming routines and [chat] read,
    and the two external calls of [chat]:
    [query_data] is the similarity search of the vector store and
    [arun] the call of the language-model chain. *)
Variable conversattion_limit : Z.
Variable docs_limit : Z.
Variable query_data : string -> string -> outcome (list Document).
Variable arun : string -> string -> string -> outcome string.

Definition human_msg_formatted (human_msg : string) : string :=
  ("Human: " ++ human_msg)%string.

Definition ai_msg_formatted (ai_name ai_msg : string) : string :=
  (ai_name ++ ": " ++ ai_msg)%string.

(** The cost that the loop of [format_messages] adds for one pair. *)
Definition pair_tokens (human_only : bool) (ai_name : string)
           (turn : string * string) : Z :=
  let human_tokens := get_num_tokens (human_msg_formatted (fst turn)) in
  let ai_tokens := get_num_tokens (ai_msg_formatted ai_name (snd turn)) in
  if negb human_only then human_tokens + ai_tokens else human_tokens.

(** The [for] loop of [format_messages], with its two accumulators.
    [keep] builds the entry appended to [cleaned_msgs]: the human line
    alone when [human_only], the pair of lines otherwise. *)
Fixpoint format_loop {E : Type} (keep : string -> string -> E)
         (tokens_limit : Z) (human_only : bool) (ai_name : string)
         (chat_history : list (string * string))
         (cleaned_msgs : list E) (tokens_used : Z) : list E :=
  match chat_history with
  | [] => cleaned_msgs
  | (human_msg, ai_msg) :: rest =>
      let human_tokens := get_num_tokens (human_msg_formatted human_msg) in
      let ai_tokens := get_num_tokens (ai_msg_formatted ai_name ai_msg) in
      let new_tokens_used :=
        if negb human_only then tokens_used + human_tokens + ai_tokens
        else tokens_used + human_tokens in
      if new_tokens_used >? tokens_limit then cleaned_msgs
      else
        format_loop keep tokens_limit human_only ai_name rest
          (cleaned_msgs ++
             [keep (human_msg_formatted human_msg)
                   (ai_msg_formatted ai_name ai_msg)])
          new_tokens_used
  end.

(** The final [join] of [format_messages] on a list of kept entries. *)
Definition join_human_only (cleaned_msgs : list string) : string :=
  Py.join (Py.LF ++ Py.LF) cleaned_msgs.

Definition join_turns (cleaned_msgs : list (string * string)) : string :=
  Py.join (Py.LF ++ Py.LF)
    (map (fun clean_msg =>
            (fst clean_msg ++ Py.LF ++ Py.LF ++ snd clean_msg)%string)
       cleaned_msgs).

Definition format_messages (chat_history : list (string * string))
           (tokens_limit : Z) (human_only : bool) (ai_name : string)
  : string :=
  if human_only then
    join_human_only
      (format_loop (fun h _ => h) tokens_limit human_only ai_name
         chat_history [] 0)
  else
    join_turns
      (format_loop (fun h a => (h, a)) tokens_limit human_only ai_name
         chat_history [] 0).

(** The entry the loop appends to [cleaned_msgs] for a turn it keeps. *)
Definition kept_entry {E : Type} (keep : string -> string -> E)
           (ai_name : string) (turn : string * string) : E :=
  keep (human_msg_formatted (fst turn)) (ai_msg_formatted ai_name (snd turn)).

(** What [format_messages] returns when exactly the pairs of [turns]
    are kept. *)
Definition rendered (human_only : bool) (ai_name : string)
           (turns : list (string * string)) : string :=
  if human_only then
    join_human_only (map (kept_entry (fun h _ => h) ai_name) turns)
  else
    join_turns (map (kept_entry (fun h a => (h, a)) ai_name) turns).

(** The running total of the loop after the pairs of [turns]. *)
Definition tokens_of (human_only : bool) (ai_name : string)
           (turns : list (string * string)) : Z :=
  Py.sum (map (pair_tokens human_only ai_name) turns).

(** The [while] loop of [_reduce_tokens_below_limit]; it returns the
    final [num_docs].  [tokens[num_docs]] follows Python indexing, so
    the loop ends with an [IndexError] once [num_docs] falls below
    [-len(tokens)]. *)
Fixpoint reduce_loop (fuel : nat) (tokens : list Z) (limit : Z)
         (num_docs token_count : Z) : outcome Z :=
  if token_count >? limit then
    match fuel with
    | O => Diverge
    | S fuel' =>
        let num_docs := num_docs - 1 in
        match Py.index tokens num_docs with
        | None => Raise (IndexError "list index out of range")
        | Some t => reduce_loop fuel' tokens limit num_docs (token_count - t)
        end
    end
  else Ok num_docs.

Definition doc_tokens (doc : Document) : Z :=
  get_num_tokens (page_content doc).

(** The total cost of a sequence of passages. *)
Definition total_tokens (docs : list Document) : Z :=
  Py.sum (map doc_tokens docs).

Definition _reduce_tokens_below_limit (docs : list Document) (limit : Z)
  : outcome (list Document) :=
  let num_docs := Z.of_nat (List.length docs) in
  let tokens := map doc_tokens docs in
  let token_count := Py.sum (Py.slice_to tokens num_docs) in
  obind (reduce_loop (2 * List.length docs + 2) tokens limit num_docs token_count)
        (fun num_docs => Ok (Py.slice_to docs num_docs)).

(** The query string [chat] sends to the vector store. *)
Definition combined (query : string) (chat_history : list (string * string))
  : string :=
  (format_messages chat_history conversattion_limit true "AgritechAI"
     ++ Py.LF ++ "Human: " ++ query)%string.

(** [chat]: the prompt template is part of the chain behind [arun],
    which receives [question], [conversation] and [help_data]. *)
Definition chat (query : string) (chat_history : list (string * string))
           (collection_name : string) : outcome string :=
  let conversation :=
    format_messages chat_history conversattion_limit false "AgritechAI" in
  obind (query_data (combined query chat_history) collection_name)
    (fun docs =>
  obind (_reduce_tokens_below_limit docs docs_limit)
    (fun docs =>
  let docs := Py.join (Py.LF ++ Py.LF) (map page_content docs) in
  arun query conversation docs)).

End Manager.

End KnowledgeManager.

(** ** Stateful code: a table as state, exceptions as outcomes *)

(** A computation over a store [S]: it returns the store it leaves
    behind together with its outcome.  The managers open a connection
    with [connection_context], which starts no transaction: a statement
    that was executed before an exception stays executed. *)
Definition M (S A : Type) : Type := S -> S * outcome A.

Definition ret {S A : Type} (a : A) : M S A := fun s => (s, Ok a).

Definition raise {S A : Type} (e : exn) : M S A := fun s => (s, Raise e).

Definition lift {S A : Type} (c : outcome A) : M S A := fun s => (s, c).

Definition bind {S A B : Type} (c : M S A) (k : A -> M S B) : M S B :=
  fun s =>
    match c s with
    | (s', Ok a) => k a s'
    | (s', Raise e) => (s', Raise e)
    | (s', Diverge) => (s', Diverge)
    end.

Definition gets {S A : Type} (f : S -> A) : M S A := fun s => (s, Ok (f s)).

Definition modify {S : Type} (f : S -> S) : M S unit := fun s => (f s, Ok tt).

Notation "x <- c ;; k" := (bind c (fun x => k))
  (at level 61, c at next level, right associativity).

(** [try: body except Exception: handler]: what [body] did to the store
    before it raised stays done. *)
Definition try_except {S A : Type} (body : M S A) (handler : exn -> M S A)
  : M S A :=
  fun s =>
    match body s with
    | (s', Raise e) => handler e s'
    | r => r
    end.

(** The peewee queries the managers build. *)
Module Peewee.

(** [ORDER BY]: insertion sort by a comparison on rows; rows with equal
    keys keep their table order. *)
Fixpoint insert_by {A : Type} (le : A -> A -> bool) (x : A) (rows : list A)
  : list A :=
  match rows with
  | [] => [x]
  | y :: rows' => if le x y then x :: rows else y :: insert_by le x rows'
  end.

Definition order_by {A : Type} (le : A -> A -> bool) (rows : list A) : list A :=
  fold_right (insert_by le) [] rows.

(** [query.first()]. *)
Definition first {A : Type} (rows : list A) : option A := hd_error rows.

(** [query.execute()] of a [DELETE ... WHERE]: the rows left and the
    number of rows removed. *)
Definition delete_where {A : Type} (p : A -> bool) (rows : list A)
  : list A * Z :=
  (filter (fun r => negb (p r)) rows, Z.of_nat (List.length (filter p rows))).

End Peewee.

(** ** database.py *)

(** The pydantic model [FileModel]. *)
Module FileModel.
Record t : Type := mk {
  filename : string;
  description : option string;
  filetype : option string;
  vector_ids : list string;
  file_content : option string;
  file_bytes : option (list Byte.byte)
}.
End FileModel.

(** A row of the peewee model [File]. *)
Module File.
Record t : Type := mk {
  filename : string;
  filetype : option string;
  vector_ids : list string;
  file_content : option string;
  file_bytes : option (list Byte.byte);
  description : option string
}.
End File.

Module FileDBManager.

(** The table of [File] rows, in insertion order. *)
Definition table : Type := list File.t.

Definition has_name (filename : string) (file : File.t) : bool :=
  (File.filename file =? filename)%string.

Definition file_to_pydantic (file : File.t) : outcome FileModel.t :=
  obind (Py.bytes (File.file_bytes file))
    (fun b =>
       Ok {| FileModel.filename := File.filename file;
             FileModel.filetype := File.filetype file;
             FileModel.vector_ids := File.vector_ids file;
             FileModel.file_content := File.file_content file;
             FileModel.file_bytes := Some b;
             FileModel.description := File.description file |}).

Definition pydantic_to_file (file_model : FileModel.t) : File.t :=
  {| File.filename := FileModel.filename file_model;
     File.filetype := FileModel.filetype file_model;
     File.vector_ids := FileModel.vector_ids file_model;
     File.file_content := FileModel.file_content file_model;
     File.file_bytes := FileModel.file_bytes file_model;
     File.description := FileModel.description file_model |}.

Definition add_file (file_model : FileModel.t) : M table FileModel.t :=
  existing_file <-
    gets (fun db =>
            Peewee.first (filter (has_name (FileModel.filename file_model)) db)) ;;
  match existing_file with
  | Some _ => raise (ValueError "File already exists")
  | None =>
      let file := pydantic_to_file file_model in
      _ <- modify (fun db => db ++ [file]) ;;
      lift (file_to_pydantic file)
  end.

(** [Model.get] raises [DoesNotExist] on no row, which the [except]
    clause turns into [None]; any other exception passes through. *)
Definition get_file_by_name (filename : string) : M table (option FileModel.t) :=
  found <- gets (fun db => Peewee.first (filter (has_name filename) db)) ;;
  match found with
  | None => ret None
  | Some file =>
      r <- lift (file_to_pydantic file) ;;
      ret (Some r)
  end.

Definition delete_file (filename : string) : M table Z :=
  file <- get_file_by_name filename ;;
  match file with
  | None => raise (ValueError "Invalid collection/file")
  | Some _ =>
      fun db =>
        let (db', count) := Peewee.delete_where (has_name filename) db in
        (db', Ok count)
  end.

Definition delete_all : M table Z :=
  fun db =>
    let (db', count) := Peewee.delete_where (fun _ => true) db in
    (db', Ok count).

Definition insert_many (rows : list FileModel.t) : M table unit :=
  let data_to_insert := map pydantic_to_file rows in
  modify (fun db => db ++ data_to_insert).

(** The list comprehension of [get_all]: rows are converted in table
    order, and the first conversion that raises ends it. *)
Fixpoint to_pydantic_all (files : list File.t) : outcome (list FileModel.t) :=
  match files with
  | [] => Ok []
  | file :: rest =>
      obind (file_to_pydantic file)
        (fun file_model =>
           obind (to_pydantic_all rest)
             (fun file_models => Ok (file_model :: file_models)))
  end.

Definition get_all : M table (list FileModel.t) :=
  fun db => (db, to_pydantic_all db).

End FileDBManager.

(** A row of the peewee model [ChatMessage]. *)
Module ChatMessage.
Record t : Type := mk {
  ai_message : string;
  human_message : string;
  sequence_number : Z;
  namespace : string
}.
End ChatMessage.

Module ChatManager.

(** The table of [ChatMessage] rows, in insertion order. *)
Definition table : Type := list ChatMessage.t.

Definition in_namespace (namespace : string) (row : ChatMessage.t) : bool :=
  (ChatMessage.namespace row =? namespace)%string.

(** [order_by(sequence_number)] and [order_by(sequence_number.desc())]. *)
Definition asc (a b : ChatMessage.t) : bool :=
  ChatMessage.sequence_number a <=? ChatMessage.sequence_number b.

Definition desc (a b : ChatMessage.t) : bool :=
  ChatMessage.sequence_number b <=? ChatMessage.sequence_number a.

Definition add_message (namespace ai_message human_message : string)
  : M table unit :=
  last_message <-
    gets (fun db =>
            Peewee.first
              (Peewee.order_by desc (filter (in_namespace namespace) db))) ;;
  let sequence_number :=
    match last_message with
    | None => 0
    | Some m => ChatMessage.sequence_number m + 1
    end in
  modify (fun db =>
            db ++ [ {| ChatMessage.namespace := namespace;
                       ChatMessage.ai_message := ai_message;
                       ChatMessage.human_message := human_message;
                       ChatMessage.sequence_number := sequence_number |} ]).

Definition retrieve_all_messages (namespace : string)
  : M table (list (string * string)) :=
  gets (fun db =>
          map (fun row =>
                 (ChatMessage.human_message row, ChatMessage.ai_message row))
            (Peewee.order_by asc (filter (in_namespace namespace) db))).

(** A run of appends, one after another: each is
    [(namespace, ai_message, human_message)]. *)
Definition appends (ops : list (string * string * string)) (db : table)
  : table :=
  fold_left
    (fun db op => fst (add_message (fst (fst op)) (snd (fst op)) (snd op) db))
    ops db.

(** How many appends of a run go to a namespace. *)
Definition appends_to (namespace : string) (ops : list (string * string * string))
  : nat :=
  List.length (filter (fun op => (fst (fst op) =? namespace)%string) ops).

(** The sequence numbers stored for a namespace, in insertion order. *)
Definition sequence_numbers (namespace : string) (db : table) : list Z :=
  map ChatMessage.sequence_number (filter (in_namespace namespace) db).

End ChatManager.

(** ** telegram_bot.py *)

Module AIResponder.

Section Responder.

(** The [KnowledgeManager] the responder was built with. *)
Variable get_num_tokens : string -> Z.
Variable conversattion_limit : Z.
Variable docs_limit : Z.
Variable query_data :
  string -> string -> outcome (list KnowledgeManager.Document).
Variable arun : string -> string -> string -> outcome string.

Definition knowledge_manager_chat (text : string)
           (chat_history : list (string * string)) : outcome string :=
  KnowledgeManager.chat get_num_tokens conversattion_limit docs_limit
    query_data arun text chat_history "data".

Definition generate_response (text user_id : string)
  : M ChatManager.table string :=
  chat_history <- ChatManager.retrieve_all_messages user_id ;;
  ai_response <- lift (knowledge_manager_chat text chat_history) ;;
  _ <- ChatManager.add_message user_id ai_response text ;;
  ret ai_response.

End Responder.

End AIResponder.

(** The parts of a python-telegram-bot [Update] the handlers read.
    [from_user] holds the user's id. *)
Module Telegram.
Record Voice : Type := { file_id : string }.

Record Message : Type := {
  text : option string;
  from_user : option string;
  voice : option Voice
}.

Record Update : Type := { message : option Message }.
End Telegram.

Module TelegramBot.

(** What a handler acts on: the conversation log, and the texts that
    [reply_text] has delivered to the chat. *)
Record state : Type := {
  log : ChatManager.table;
  sent : list string
}.

(** A [ChatManager] operation run on the log of the bot. *)
Definition on_log {A : Type} (c : M ChatManager.table A) : M state A :=
  fun s =>
    let (log', r) := c (log s) in
    ({| log := log'; sent := sent s |}, r).

Section Bot.

(** The responder the bot was built with. *)
Variable get_num_tokens : string -> Z.
Variable conversattion_limit : Z.
Variable docs_limit : Z.
Variable query_data :
  string -> string -> outcome (list KnowledgeManager.Document).
Variable arun : string -> string -> string -> outcome string.

(** The network calls of the bot: [deliver] sends a reply to the chat,
    [download] fetches a voice message into a temporary file and returns
    its path, [audio_transcribe] is [openai.Audio.transcribe] on the file
    at a path. *)
Variable deliver : string -> outcome unit.
Variable download : Telegram.Voice -> outcome string.
Variable audio_transcribe : string -> outcome Py.dict.

(** [update.message.reply_text(text)]. *)
Definition reply_text (text : string) : M state unit :=
  fun s =>
    match deliver text with
    | Ok _ => ({| log := log s; sent := sent s ++ [text] |}, Ok tt)
    | Raise e => (s, Raise e)
    | Diverge => (s, Diverge)
    end.

(** [WhisperTranscriber.transcribe]: any exception becomes [None]. *)
Definition transcribe (audio_file_path : string) : outcome (option Py.dict) :=
  match audio_transcribe audio_file_path with
  | Ok transcript => Ok (Some transcript)
  | Raise _ => Ok None
  | Diverge => Diverge
  end.

(** [_generate_and_send_response], for an update that carries the
    message [msg].  A message without sender makes [from_user.id] raise
    inside the [try], which the [except] clause catches like any other
    exception. *)
Definition _generate_and_send_response (user_message : string)
           (msg : Telegram.Message) : M state unit :=
  let sorry := reply_text "Sorry, I couldn't process that." in
  match Telegram.from_user msg with
  | None => sorry
  | Some user_id =>
      try_except
        (ai_response <-
           on_log (AIResponder.generate_response get_num_tokens
                     conversattion_limit docs_limit query_data arun
                     user_message user_id) ;;
         reply_text ai_response)
        (fun _ => sorry)
  end.

(** [handle_update]: [None] and the empty string are both false for the
    [if]. *)
Definition handle_update (update : Telegram.Update) : M state unit :=
  match Telegram.message update with
  | None => ret tt
  | Some msg =>
      match Telegram.text msg with
      | None => ret tt
      | Some text =>
          if (text =? "")%string then ret tt
          else _generate_and_send_response text msg
      end
  end.

(** [_download_voice], for an update that carries the message [msg]:
    the path of the downloaded file, or [""] when there is no voice or
    the download raises. *)
Definition _download_voice (msg : Telegram.Message) : M state string :=
  match Telegram.voice msg with
  | None => ret ""
  | Some voice =>
      match download voice with
      | Ok temp_file_path => ret temp_file_path
      | Raise _ => ret ""
      | Diverge => lift Diverge
      end
  end.

(** [handle_voice], for an update that carries the message [msg]; an
    empty transcription dict is as false as [None]. *)
Definition handle_voice (msg : Telegram.Message) : M state unit :=
  audio_file_path <- _download_voice msg ;;
  if (audio_file_path =? "")%string then
    reply_text "Sorry, I couldn't download the voice message."
  else
    transcription <- lift (transcribe audio_file_path) ;;
    match transcription with
    | None | Some [] =>
        reply_text "Sorry, I couldn't understand the voice message."
    | Some transcript =>
        _generate_and_send_response
          (match Py.dict_get transcript "text" with
           | Some text => text
           | None => ""
           end)
          msg
    end.

End Bot.

End TelegramBot.

(** ** Sample inputs *)

Module Samples.

(** Four passages and three turns; the token counters below give them
    the costs of the worked examples. *)
Definition passage (text : string) : KnowledgeManager.Document :=
  {| KnowledgeManager.page_content := text;
     KnowledgeManager.metadata := [("source", "handbook.pdf")] |}.

Definition passages : list KnowledgeManager.Document :=
  [passage "Rotate legumes with cereals.";
   passage "Drip irrigation saves water.";
   passage "Mulch keeps the soil moist.";
   passage "Test the soil pH every season."].

Definition turns : list (string * string) :=
  [("When do I sow wheat?", "In late autumn.");
   ("And barley?", "A few weeks earlier.");
   ("Which fertiliser?", "Start with a soil test.")].

(** The two line feeds between two lines of a rendered history. *)
Definition blank_line : string := String "010" (String "010" "").

(** A counter that charges every text the same. *)
Definition flat (cost : Z) : string -> Z := fun _ => cost.

(** A counter that charges one token per character. *)
Definition per_char : string -> Z := fun s => Z.of_nat (String.length s).

Definition no_bytes : FileModel.t :=
  {| FileModel.filename := "notes.txt";
     FileModel.description := None;
     FileModel.filetype := Some ".txt";
     FileModel.vector_ids := ["1"; "2"];
     FileModel.file_content := Some "Sow in rows.";
     FileModel.file_bytes := None |}.

Definition with_bytes : FileModel.t :=
  {| FileModel.filename := "Test File";
     FileModel.description := Some "Desctiption";
     FileModel.filetype := Some ".txt";
     FileModel.vector_ids := ["1"; "2"; "3"];
     FileModel.file_content := Some "This is a test file content.";
     FileModel.file_bytes := Some [Byte.x53; Byte.x6f; Byte.x6d; Byte.x65] |}.

(** Collaborators that answer, and collaborators that fail. *)
Definition vector_store
  : string -> string -> outcome (list KnowledgeManager.Document) :=
  fun _ _ => Ok passages.

Definition vector_store_down
  : string -> string -> outcome (list KnowledgeManager.Document) :=
  fun _ _ => Raise (CollaboratorError "vector store unavailable").

Definition model : string -> string -> string -> outcome string :=
  fun _ _ _ => Ok "Sow it in late autumn.".

Definition model_down : string -> string -> string -> outcome string :=
  fun _ _ _ => Raise (CollaboratorError "model unavailable").

(** The network calls of the bot, working and failing. *)
Definition deliver_ok : string -> outcome unit := fun _ => Ok tt.

Definition download_ok : Telegram.Voice -> outcome string :=
  fun _ => Ok "/tmp/tmpk3v9.ogg".

Definition download_down : Telegram.Voice -> outcome string :=
  fun _ => Raise (CollaboratorError "timed out").

Definition whisper : string -> outcome Py.dict :=
  fun _ => Ok [("text", "When do I sow wheat?")].

Definition whisper_down : string -> outcome Py.dict :=
  fun _ => Raise (CollaboratorError "rate limited").

(** A connection on which only the short apology gets through. *)
Definition deliver_sorry_only : string -> outcome unit :=
  fun text =>
    if (text =? "Sorry, I couldn't process that.")%string then Ok tt
    else Raise (CollaboratorError "message is too long").

Definition bot_state : TelegramBot.state :=
  {| TelegramBot.log :=
       [{| ChatMessage.ai_message := "hello";
           ChatMessage.human_message := "hi";
           ChatMessage.sequence_number := 0;
           ChatMessage.namespace := "u1" |}];
     TelegramBot.sent := ["hello"] |}.

Definition text_message : Telegram.Message :=
  {| Telegram.text := Some "When do I sow wheat?";
     Telegram.from_user := Some "u1";
     Telegram.voice := None |}.

Definition voice_message : Telegram.Message :=
  {| Telegram.text := None;
     Telegram.from_user := Some "u1";
     Telegram.voice := Some {| Telegram.file_id := "AwACAgQ" |} |}.

Definition message (namespace : string) (n : Z) : ChatMessage.t :=
  {| ChatMessage.ai_message := "hello";
     ChatMessage.human_message := "hi";
     ChatMessage.sequence_number := n;
     ChatMessage.namespace := namespace |}.

End Samples.

(** * Properties *)

(** ** Lists and sums *)

Section ListFacts.

Lemma fold_add_acc (xs : list Z) (a : Z) :
  fold_left Z.add xs a = a + fold_left Z.add xs 0.
Proof.
  revert a. induction xs as [|x xs IH]; intros a; simpl.
  - lia.
  - rewrite (IH (a + x)), (IH x). lia.
Qed.

Lemma sum_nil : Py.sum [] = 0.
Proof. reflexivity. Qed.

Lemma sum_cons (x : Z) (xs : list Z) : Py.sum (x :: xs) = x + Py.sum xs.
Proof. unfold Py.sum. simpl. apply fold_add_acc. Qed.

Lemma sum_app (xs ys : list Z) : Py.sum (xs ++ ys) = Py.sum xs + Py.sum ys.
Proof.
  induction xs as [|x xs IH].
  - rewrite sum_nil. reflexivity.
  - change ((x :: xs) ++ ys) with (x :: (xs ++ ys)).
    rewrite !sum_cons, IH. lia.
Qed.

Lemma sum_nonneg (xs : list Z) :
  (forall x, In x xs -> 0 <= x) -> 0 <= Py.sum xs.
Proof.
  induction xs as [|x xs IH]; intros H.
  - rewrite sum_nil. lia.
  - rewrite sum_cons.
    assert (0 <= x) by (apply H; now left).
    assert (0 <= Py.sum xs) by (apply IH; intros y Hy; apply H; now right).
    lia.
Qed.

Lemma firstn_snoc {A : Type} (xs : list A) (j : nat) (x : A) :
  nth_error xs j = Some x -> firstn (S j) xs = firstn j xs ++ [x].
Proof.
  revert j. induction xs as [|y xs IH]; intros [|j] H; simpl in *;
    try discriminate.
  - now inversion H.
  - f_equal. now apply IH.
Qed.

Lemma in_firstn {A : Type} (xs : list A) (j : nat) (x : A) :
  In x (firstn j xs) -> In x xs.
Proof.
  intros H. rewrite <- (firstn_skipn j xs). apply in_or_app. now left.
Qed.

Lemma index_of_nat {A : Type} (xs : list A) (j : nat) :
  Py.index xs (Z.of_nat j) = nth_error xs j.
Proof.
  unfold Py.index.
  destruct (Z.leb_spec 0 (Z.of_nat j)); [|lia].
  now rewrite Nat2Z.id.
Qed.

Lemma slice_to_of_nat {A : Type} (xs : list A) (j : nat) :
  Py.slice_to xs (Z.of_nat j) = firstn j xs.
Proof.
  unfold Py.slice_to.
  destruct (Z.leb_spec 0 (Z.of_nat j)); [|lia].
  now rewrite Nat2Z.id.
Qed.

(** Among the prefix lengths up to [n], the last one that satisfies a
    decidable property, when one does. *)
Lemma last_satisfying (P : nat -> Prop) (n k0 : nat) :
  (forall j, P j \/ ~ P j) ->
  (k0 <= n)%nat -> P k0 ->
  exists k, (k0 <= k <= n)%nat /\ P k /\
            forall j, (k < j <= n)%nat -> ~ P j.
Proof.
  intros dec. induction n as [|n IH]; intros Hle Hk0.
  - exists k0. split; [lia|]. split; [assumption|]. intros j Hj. lia.
  - destruct (dec (S n)) as [HP|HP].
    + exists (S n). split; [lia|]. split; [assumption|]. intros j Hj. lia.
    + assert (k0 <= n)%nat as Hle'.
      { destruct (Nat.eq_dec k0 (S n)) as [->|]; [contradiction|lia]. }
      destruct (IH Hle' Hk0) as (k & Hk & HPk & Hmax).
      exists k. split; [lia|]. split; [assumption|].
      intros j Hj. destruct (Nat.eq_dec j (S n)) as [->|]; [assumption|].
      apply Hmax. lia.
Qed.

End ListFacts.

(** ** Reference-passage trimming *)

Section ReduceFacts.

Variable get_num_tokens : string -> Z.

Local Abbreviation doc_tokens := (KnowledgeManager.doc_tokens get_num_tokens).
Local Abbreviation total_tokens := (KnowledgeManager.total_tokens get_num_tokens).
Local Abbreviation reduce :=
  (KnowledgeManager._reduce_tokens_below_limit get_num_tokens).

(** From [num_docs = k + d] the loop walks down to [k] when the first
    [k] costs fit and no longer prefix on the way does. *)
Lemma reduce_loop_walks (tokens : list Z) (limit : Z) (k d fuel : nat) :
  (d <= fuel)%nat ->
  (k + d <= List.length tokens)%nat ->
  Py.sum (firstn k tokens) <= limit ->
  (forall j, (k < j <= k + d)%nat -> Py.sum (firstn j tokens) > limit) ->
  KnowledgeManager.reduce_loop fuel tokens limit
    (Z.of_nat (k + d)) (Py.sum (firstn (k + d) tokens)) = Ok (Z.of_nat k).
Proof.
  revert fuel. induction d as [|d IH]; intros fuel Hfuel Hlen Hfit Hover.
  - rewrite Nat.add_0_r.
    destruct fuel; simpl;
      destruct (Z.gtb_spec (Py.sum (firstn k tokens)) limit); auto; lia.
  - destruct fuel as [|fuel]; [lia|].
    assert (Py.sum (firstn (k + S d) tokens) > limit) as Hgt
        by (apply Hover; lia).
    simpl.
    destruct (Z.gtb_spec (Py.sum (firstn (k + S d) tokens)) limit); [|lia].
    replace (Z.of_nat (k + S d) - 1) with (Z.of_nat (k + d)) by lia.
    rewrite index_of_nat.
    destruct (nth_error tokens (k + d)) as [t|] eqn:Ht.
    + replace (k + S d)%nat with (S (k + d)) by lia.
      rewrite (firstn_snoc _ _ _ Ht), sum_app, sum_cons, sum_nil.
      replace (Py.sum (firstn (k + d) tokens) + (t + 0) - t)
        with (Py.sum (firstn (k + d) tokens)) by lia.
      apply IH; try lia; auto.
      intros j Hj. apply Hover. lia.
    + apply nth_error_None in Ht. lia.
Qed.

Lemma total_tokens_firstn (docs : list KnowledgeManager.Document) (j : nat) :
  total_tokens (firstn j docs) = Py.sum (firstn j (map doc_tokens docs)).
Proof.
  unfold total_tokens, KnowledgeManager.total_tokens.
  now rewrite firstn_map.
Qed.

(** The routine returns the longest prefix that fits, whenever some
    prefix fits. *)
Lemma reduce_longest_prefix (docs : list KnowledgeManager.Document)
      (limit : Z) (k : nat) :
  (k <= List.length docs)%nat ->
  total_tokens (firstn k docs) <= limit ->
  (forall j, (k < j <= List.length docs)%nat ->
             total_tokens (firstn j docs) > limit) ->
  reduce docs limit = Ok (firstn k docs).
Proof.
  intros Hk Hfit Hover.
  unfold reduce, KnowledgeManager._reduce_tokens_below_limit.
  rewrite slice_to_of_nat.
  set (tokens := map (KnowledgeManager.doc_tokens get_num_tokens) docs).
  assert (List.length tokens = List.length docs) as Hlen
      by (unfold tokens; now rewrite length_map).
  pose proof (reduce_loop_walks tokens limit k (List.length docs - k)
                (2 * List.length docs + 2)) as W.
  replace (k + (List.length docs - k))%nat with (List.length docs) in W by lia.
  rewrite W.
  - simpl. now rewrite slice_to_of_nat.
  - lia.
  - lia.
  - unfold tokens. rewrite <- total_tokens_firstn. exact Hfit.
  - intros j Hj. unfold tokens. rewrite <- total_tokens_firstn.
    apply Hover. lia.
Qed.

End ReduceFacts.

Section ReduceTheorems.

Import KnowledgeManager.

Lemma index_some_bounds {A : Type} (xs : list A) (i : Z) (x : A) :
  Py.index xs i = Some x ->
  - Z.of_nat (List.length xs) <= i < Z.of_nat (List.length xs).
Proof.
  unfold Py.index. intros H.
  destruct (Z.leb_spec 0 i).
  - assert (Z.to_nat i < List.length xs)%nat
      by (apply nth_error_Some; congruence).
    lia.
  - destruct (Z.leb_spec (- Z.of_nat (List.length xs)) i); [lia|discriminate].
Qed.

(** The loop always ends: each round lowers [num_docs], and the index
    raises once it is out of range. *)
Lemma reduce_loop_ends (tokens : list Z) (limit : Z) (fuel : nat) :
  forall num_docs token_count,
    (Z.to_nat (num_docs + Z.of_nat (List.length tokens) + 1) < fuel)%nat ->
    reduce_loop fuel tokens limit num_docs token_count <> Diverge.
Proof.
  induction fuel as [|fuel IH]; intros num_docs token_count Hfuel; [lia|].
  simpl. destruct (token_count >? limit); [|discriminate].
  destruct (Py.index tokens (num_docs - 1)) as [t|] eqn:Ht; [|discriminate].
  apply index_some_bounds in Ht. apply IH. lia.
Qed.

Lemma reduce_never_diverges (get_num_tokens : string -> Z)
      (docs : list Document) (limit : Z) :
  _reduce_tokens_below_limit get_num_tokens docs limit <> Diverge.
Proof.
  unfold _reduce_tokens_below_limit.
  set (tokens := map (doc_tokens get_num_tokens) docs).
  pose proof (reduce_loop_ends tokens limit (2 * List.length docs + 2)
                (Z.of_nat (List.length docs))
                (Py.sum (Py.slice_to tokens (Z.of_nat (List.length docs)))))
    as H.
  destruct (reduce_loop _ _ _ _ _); simpl; try discriminate.
  intros _. apply H; [|reflexivity].
  unfold tokens. rewrite length_map. lia.
Qed.

Lemma total_tokens_cons (get_num_tokens : string -> Z)
      (d : Document) (docs : list Document) :
  total_tokens get_num_tokens (d :: docs) =
  doc_tokens get_num_tokens d + total_tokens get_num_tokens docs.
Proof. unfold total_tokens. simpl map. apply sum_cons. Qed.

Lemma total_tokens_nonneg (get_num_tokens : string -> Z)
      (docs : list Document) :
  (forall x, In x docs -> 0 <= doc_tokens get_num_tokens x) ->
  0 <= total_tokens get_num_tokens docs.
Proof.
  intros H. unfold total_tokens. apply sum_nonneg.
  intros x Hx. apply in_map_iff in Hx. destruct Hx as (d & <- & Hd). auto.
Qed.

(** C1, as the code has it: the routine keeps the longest prefix that
    fits and has no special case for a last remaining passage.  For a
    non-empty sequence of passages with non-negative costs and a budget
    [D >= 0] it returns a prefix of total cost at most [D], which is
    non-empty exactly when the first passage alone costs at most [D]; a
    first passage over budget (a single passage of cost 500 with
    [D = 100]) leaves nothing. *)
Theorem reduce_nonempty_iff_first_fits :
  forall (get_num_tokens : string -> Z) (d : Document)
         (rest : list Document) (D : Z),
    (forall x, In x (d :: rest) -> 0 <= doc_tokens get_num_tokens x) ->
    0 <= D ->
    exists kept,
      _reduce_tokens_below_limit get_num_tokens (d :: rest) D = Ok kept /\
      (exists k, kept = firstn k (d :: rest)) /\
      total_tokens get_num_tokens kept <= D /\
      (kept <> [] <-> doc_tokens get_num_tokens d <= D) /\
      (D < doc_tokens get_num_tokens d -> kept = []).
Proof.
  intros tok d rest D Hpos HD.
  set (docs := d :: rest).
  destruct (last_satisfying
              (fun j => total_tokens tok (firstn j docs) <= D)
              (List.length docs) 0) as (k & Hk & Hfit & Hmax).
  - intros j. lia.
  - lia.
  - simpl. unfold total_tokens. simpl. rewrite sum_nil. exact HD.
  - assert (kept_iff : firstn k docs <> [] <-> doc_tokens tok d <= D).
    { split.
      - intros Hne. destruct k as [|k]; [now elim Hne|].
        unfold docs in Hfit. simpl firstn in Hfit.
        rewrite total_tokens_cons in Hfit.
        assert (0 <= total_tokens tok (firstn k rest)).
        { apply total_tokens_nonneg. intros x Hx. apply Hpos.
          right. eapply in_firstn; eauto. }
        lia.
      - intros Hd. destruct k as [|k]; [|unfold docs; simpl; discriminate].
        exfalso. apply (Hmax 1%nat).
        + unfold docs. simpl. lia.
        + unfold docs. simpl firstn. rewrite total_tokens_cons.
          unfold total_tokens. simpl. rewrite sum_nil. lia. }
    exists (firstn k docs). split; [|split; [|split; [|split]]].
    + apply reduce_longest_prefix; [lia|exact Hfit|].
      intros j Hj. specialize (Hmax j Hj). lia.
    + now exists k.
    + exact Hfit.
    + exact kept_iff.
    + intros Hover. destruct (firstn k docs) eqn:E; [reflexivity|].
      assert (doc_tokens tok d <= D) by (apply kept_iff; discriminate).
      lia.
Qed.

Lemma reduce_nonempty_iff_first_fits_witness :
  exists kept,
    _reduce_tokens_below_limit (Samples.flat 500)
      [Samples.passage "Rotate legumes with cereals."] 100 = Ok kept /\
    (exists k, kept = firstn k [Samples.passage "Rotate legumes with cereals."]) /\
    total_tokens (Samples.flat 500) kept <= 100 /\
    (kept <> [] <->
     doc_tokens (Samples.flat 500)
       (Samples.passage "Rotate legumes with cereals.") <= 100) /\
    (100 < doc_tokens (Samples.flat 500)
             (Samples.passage "Rotate legumes with cereals.") -> kept = []).
Proof.
  apply (reduce_nonempty_iff_first_fits (Samples.flat 500)
           (Samples.passage "Rotate legumes with cereals.") [] 100).
  - intros x _. unfold doc_tokens, Samples.flat. lia.
  - lia.
Defined.

(** C1, as stated, fails: a single passage of cost 500 under a budget of
    100 is dropped, and the result is empty. *)
Lemma reduce_empties_singleton_over_budget :
  total_tokens (Samples.flat 500)
    [Samples.passage "Rotate legumes with cereals."] = 500 /\
  _reduce_tokens_below_limit (Samples.flat 500)
    [Samples.passage "Rotate legumes with cereals."] 100 = Ok [] /\
  _reduce_tokens_below_limit (Samples.flat 500)
    [Samples.passage "Rotate legumes with cereals."] 100
  <> Ok [Samples.passage "Rotate legumes with cereals."].
Proof.
  split; [reflexivity|]. split; [reflexivity|].
  vm_compute. discriminate.
Qed.

(** Under a negative budget the loop runs past 0 and [tokens[num_docs]]
    indexes from the end: the routine may stop on a negative [num_docs]
    or raise [IndexError]. *)
Example reduce_negative_budget :
  _reduce_tokens_below_limit (Samples.flat 30) Samples.passages (-20)
  = Ok (firstn 3 Samples.passages) /\
  _reduce_tokens_below_limit (Samples.flat 30) Samples.passages (-200)
  = Raise (IndexError "list index out of range") /\
  _reduce_tokens_below_limit (Samples.flat 30) [] (-1)
  = Raise (IndexError "list index out of range").
Proof. repeat split. Qed.

(** C4: when some proper non-empty prefix of a sequence of more than one
    passage fits the budget [D], the routine drops passages from the
    tail while the total exceeds [D]: it returns a non-empty prefix in
    the original order, of total cost at most [D], and every longer
    prefix costs more than [D].  With costs 30, 30, 30, 30 and
    [D = 65] the first two passages survive. *)
Theorem reduce_drops_from_the_tail :
  forall get_num_tokens : string -> Z,
    (forall (docs : list Document) (D : Z),
        (1 < List.length docs)%nat ->
        (exists j, (0 < j < List.length docs)%nat /\
                   total_tokens get_num_tokens (firstn j docs) <= D) ->
        exists k,
          (0 < k <= List.length docs)%nat /\
          _reduce_tokens_below_limit get_num_tokens docs D
          = Ok (firstn k docs) /\
          total_tokens get_num_tokens (firstn k docs) <= D /\
          forall j, (k < j <= List.length docs)%nat ->
                    total_tokens get_num_tokens (firstn j docs) > D)
    /\
    (forall docs : list Document,
        map (doc_tokens get_num_tokens) docs = [30; 30; 30; 30] ->
        _reduce_tokens_below_limit get_num_tokens docs 65
        = Ok (firstn 2 docs)).
Proof.
  intros tok. split.
  - intros docs D Hlen (j0 & Hj0 & Hfit0).
    destruct (last_satisfying
                (fun j => total_tokens tok (firstn j docs) <= D)
                (List.length docs) j0) as (k & Hk & Hfit & Hmax).
    + intros j. lia.
    + lia.
    + exact Hfit0.
    + assert (forall j, (k < j <= List.length docs)%nat ->
                        total_tokens tok (firstn j docs) > D) as Hover.
      { intros j Hj. specialize (Hmax j Hj). lia. }
      exists k. split; [lia|]. split; [|split; assumption].
      apply reduce_longest_prefix; [lia|assumption|assumption].
  - intros docs Hcosts.
    assert (List.length docs = 4%nat) as Hlen.
    { rewrite <- (length_map (doc_tokens tok)), Hcosts. reflexivity. }
    apply reduce_longest_prefix.
    + lia.
    + rewrite total_tokens_firstn.
      fold (doc_tokens tok). rewrite Hcosts. vm_compute. discriminate.
    + intros j Hj. rewrite total_tokens_firstn.
      fold (doc_tokens tok). rewrite Hcosts.
      assert (j = 3 \/ j = 4)%nat as [-> | ->] by lia; reflexivity.
Qed.

Lemma reduce_drops_from_the_tail_witness :
  (exists k,
      (0 < k <= List.length Samples.passages)%nat /\
      _reduce_tokens_below_limit (Samples.flat 30) Samples.passages 65
      = Ok (firstn k Samples.passages) /\
      total_tokens (Samples.flat 30) (firstn k Samples.passages) <= 65 /\
      forall j, (k < j <= List.length Samples.passages)%nat ->
                total_tokens (Samples.flat 30) (firstn j Samples.passages) > 65)
  /\
  _reduce_tokens_below_limit (Samples.flat 30) Samples.passages 65
  = Ok (firstn 2 Samples.passages).
Proof.
  split.
  - apply (proj1 (reduce_drops_from_the_tail (Samples.flat 30))
             Samples.passages 65).
    + simpl. lia.
    + exists 2%nat. split; [simpl; lia|].
      vm_compute. discriminate.
  - apply (proj2 (reduce_drops_from_the_tail (Samples.flat 30))
             Samples.passages).
    reflexivity.
Defined.

End ReduceTheorems.

(** ** Chat-history trimming *)

Section FormatTheorems.

Import KnowledgeManager.

Variable get_num_tokens : string -> Z.

Lemma format_loop_cons {E : Type} (keep : string -> string -> E)
      (L : Z) (human_only : bool) (ai_name : string)
      (t : string * string) (rest : list (string * string))
      (cleaned_msgs : list E) (tokens_used : Z) :
  format_loop get_num_tokens keep L human_only ai_name (t :: rest)
    cleaned_msgs tokens_used =
  if tokens_used + pair_tokens get_num_tokens human_only ai_name t >? L
  then cleaned_msgs
  else format_loop get_num_tokens keep L human_only ai_name rest
         (cleaned_msgs ++ [kept_entry keep ai_name t])
         (tokens_used + pair_tokens get_num_tokens human_only ai_name t).
Proof.
  destruct t as [h a]. unfold pair_tokens, kept_entry.
  destruct human_only; simpl; rewrite ?Z.add_assoc; reflexivity.
Qed.

Lemma tokens_of_cons (human_only : bool) (ai_name : string)
      (t : string * string) (ts : list (string * string)) :
  tokens_of get_num_tokens human_only ai_name (t :: ts) =
  pair_tokens get_num_tokens human_only ai_name t
  + tokens_of get_num_tokens human_only ai_name ts.
Proof. unfold tokens_of. simpl map. apply sum_cons. Qed.

(** The loop keeps a prefix of the history: every kept prefix fits, and
    the pair after the last kept one, if any, would overflow. *)
Lemma format_loop_prefix {E : Type} (keep : string -> string -> E)
      (L : Z) (human_only : bool) (ai_name : string) :
  forall (chat_history : list (string * string))
         (cleaned_msgs : list E) (tokens_used : Z),
  exists k,
    (k <= List.length chat_history)%nat /\
    format_loop get_num_tokens keep L human_only ai_name chat_history
      cleaned_msgs tokens_used
    = cleaned_msgs ++ map (kept_entry keep ai_name) (firstn k chat_history) /\
    (forall j, (0 < j <= k)%nat ->
               tokens_used
               + tokens_of get_num_tokens human_only ai_name
                   (firstn j chat_history) <= L) /\
    ((k < List.length chat_history)%nat ->
     tokens_used
     + tokens_of get_num_tokens human_only ai_name
         (firstn (S k) chat_history) > L).
Proof.
  induction chat_history as [|t rest IH]; intros cleaned_msgs tokens_used.
  - exists 0%nat. simpl. rewrite app_nil_r.
    split; [lia|]. split; [reflexivity|]. split; intros; lia.
  - rewrite format_loop_cons.
    destruct (Z.gtb_spec
                (tokens_used + pair_tokens get_num_tokens human_only ai_name t) L)
      as [Hover|Hfit].
    + exists 0%nat. simpl firstn. simpl map. rewrite app_nil_r.
      split; [simpl; lia|]. split; [reflexivity|]. split; [intros; lia|].
      intros _. rewrite tokens_of_cons. unfold tokens_of. simpl. rewrite sum_nil.
      lia.
    + destruct (IH (cleaned_msgs ++ [kept_entry keep ai_name t])
                  (tokens_used
                   + pair_tokens get_num_tokens human_only ai_name t))
        as (k & Hk & Hloop & Hfits & Hnext).
      exists (S k). split; [simpl; lia|]. split; [|split].
      * rewrite Hloop, <- app_assoc. reflexivity.
      * intros [|j] Hj; [lia|]. simpl firstn. rewrite tokens_of_cons.
        destruct j as [|j].
        -- unfold tokens_of. simpl. rewrite sum_nil. lia.
        -- specialize (Hfits (S j)). lia.
      * intros Hlt. simpl firstn. rewrite tokens_of_cons.
        simpl in Hlt. assert (k < List.length rest)%nat as Hlt' by lia.
        specialize (Hnext Hlt'). simpl firstn in Hnext. lia.
Qed.

Lemma tokens_of_firstn (human_only : bool) (ai_name : string)
      (chat_history : list (string * string)) (j : nat) :
  tokens_of get_num_tokens human_only ai_name (firstn j chat_history)
  = Py.sum (firstn j (map (pair_tokens get_num_tokens human_only ai_name)
                        chat_history)).
Proof. unfold tokens_of. now rewrite firstn_map. Qed.

Lemma format_messages_of_loop (chat_history : list (string * string))
      (L : Z) (human_only : bool) (ai_name : string) (k : nat) :
  (forall (E : Type) (keep : string -> string -> E),
      format_loop get_num_tokens keep L human_only ai_name chat_history [] 0
      = map (kept_entry keep ai_name) (firstn k chat_history)) ->
  format_messages get_num_tokens chat_history L human_only ai_name
  = rendered human_only ai_name (firstn k chat_history).
Proof.
  intros H. unfold format_messages, rendered.
  destruct human_only; rewrite H; reflexivity.
Qed.

End FormatTheorems.

Section FormatClaims.

Import KnowledgeManager.

Lemma string_app_assoc (a b c : string) :
  ((a ++ b) ++ c = a ++ (b ++ c))%string.
Proof. induction a as [|x a IH]; simpl; [reflexivity|now rewrite IH]. Qed.

Lemma join_blank_lines (lines : list string) :
  Py.join (Py.LF ++ Py.LF) lines = blank_line_separated lines.
Proof.
  unfold Py.join.
  induction lines as [|line rest IH]; [reflexivity|].
  destruct rest as [|next rest]; [reflexivity|].
  change (String.concat (Py.LF ++ Py.LF) (line :: next :: rest))
    with (line ++ (Py.LF ++ Py.LF)
            ++ String.concat (Py.LF ++ Py.LF) (next :: rest))%string.
  rewrite IH. reflexivity.
Qed.

Lemma blank_lines_of_pairs (pairs : list (string * string)) :
  blank_line_separated
    (map (fun m => (fst m ++ Py.LF ++ Py.LF ++ snd m)%string) pairs)
  = blank_line_separated (flat_map (fun m => [fst m; snd m]) pairs).
Proof.
  induction pairs as [|[h a] rest IH]; [reflexivity|].
  destruct rest as [|next rest]; [reflexivity|].
  change (blank_line_separated
            (map (fun m => (fst m ++ Py.LF ++ Py.LF ++ snd m)%string)
               ((h, a) :: next :: rest)))
    with ((h ++ String "010" (String "010" a))
            ++ String "010"
                 (String "010"
                    (blank_line_separated
                       (map (fun m => (fst m ++ Py.LF ++ Py.LF ++ snd m)%string)
                          (next :: rest)))))%string.
  rewrite IH, string_app_assoc. reflexivity.
Qed.

(** The joins of [format_messages] produce the text as described. *)
Lemma rendered_as_described (human_only : bool) (ai_name : string)
      (turns : list (string * string)) :
  rendered human_only ai_name turns = described_text human_only ai_name turns.
Proof.
  unfold rendered, described_text, join_human_only, join_turns.
  rewrite !join_blank_lines. destruct human_only.
  - assert (map (kept_entry (fun h _ : string => h) ai_name) turns
            = flat_map (turn_lines true ai_name) turns) as ->;
      [|reflexivity].
    induction turns as [|t turns IH]; [reflexivity|].
    simpl. now rewrite IH.
  - rewrite blank_lines_of_pairs.
    assert (flat_map (fun m : string * string => [fst m; snd m])
              (map (kept_entry (fun h a : string => (h, a)) ai_name) turns)
            = flat_map (turn_lines false ai_name) turns) as ->;
      [|reflexivity].
    induction turns as [|t turns IH]; [reflexivity|].
    simpl. now rewrite IH.
Qed.

(** C3: for every history, budget [L], token counter and mode,
    [format_messages] keeps exactly the first [k] pairs, where every
    running total up to [k] is within [L] and the pair after them, if
    any, would push the running total over [L]; nothing after that pair
    is looked at.  The string returned is the lines of those [k] pairs
    and of no other, oldest first, separated by blank lines.  With costs
    50, 50, 50 and [L = 120] exactly the first two pairs are kept. *)
Theorem format_messages_stops_at_first_overflow :
  forall (get_num_tokens : string -> Z) (human_only : bool) (ai_name : string),
    (forall (chat_history : list (string * string)) (L : Z),
        exists k,
          (k <= List.length chat_history)%nat /\
          (forall (E : Type) (keep : string -> string -> E),
              format_loop get_num_tokens keep L human_only ai_name
                chat_history [] 0
              = map (kept_entry keep ai_name) (firstn k chat_history)) /\
          format_messages get_num_tokens chat_history L human_only ai_name
          = rendered human_only ai_name (firstn k chat_history) /\
          format_messages get_num_tokens chat_history L human_only ai_name
          = described_text human_only ai_name (firstn k chat_history) /\
          (forall j, (0 < j <= k)%nat ->
                     tokens_of get_num_tokens human_only ai_name
                       (firstn j chat_history) <= L) /\
          ((k < List.length chat_history)%nat ->
           tokens_of get_num_tokens human_only ai_name
             (firstn (S k) chat_history) > L))
    /\
    (forall chat_history : list (string * string),
        map (pair_tokens get_num_tokens human_only ai_name) chat_history
        = [50; 50; 50] ->
        format_messages get_num_tokens chat_history 120 human_only ai_name
        = rendered human_only ai_name (firstn 2 chat_history) /\
        format_messages get_num_tokens chat_history 120 human_only ai_name
        = described_text human_only ai_name (firstn 2 chat_history)).
Proof.
  intros tok human_only ai_name.
  assert (forall (chat_history : list (string * string)) (L : Z),
             exists k,
               (k <= List.length chat_history)%nat /\
               (forall (E : Type) (keep : string -> string -> E),
                   format_loop tok keep L human_only ai_name chat_history [] 0
                   = map (kept_entry keep ai_name) (firstn k chat_history)) /\
               (forall j, (0 < j <= k)%nat ->
                          tokens_of tok human_only ai_name
                            (firstn j chat_history) <= L) /\
               ((k < List.length chat_history)%nat ->
                tokens_of tok human_only ai_name
                  (firstn (S k) chat_history) > L)) as Hloop.
  { intros chat_history L.
    destruct (format_loop_prefix tok (fun h a => (h, a)) L human_only ai_name
                chat_history [] 0) as (k & Hk & _ & Hfits & Hnext).
    exists k. split; [exact Hk|]. split; [|split].
    - intros E keep.
      destruct (format_loop_prefix tok keep L human_only ai_name
                  chat_history [] 0) as (k' & Hk' & Hloop' & Hfits' & Hnext').
      assert (k' = k) as ->; [|exact Hloop'].
      destruct (Nat.lt_trichotomy k' k) as [Hlt|[Heq|Hgt]]; [|exact Heq|].
      + specialize (Hfits (S k')). specialize (Hnext' ltac:(lia)). lia.
      + specialize (Hfits' (S k)). specialize (Hnext ltac:(lia)). lia.
    - intros j Hj. specialize (Hfits j Hj). lia.
    - intros Hlt. specialize (Hnext Hlt). lia. }
  split.
  - intros chat_history L.
    destruct (Hloop chat_history L) as (k & Hk & Hkeep & Hfits & Hnext).
    exists k. split; [exact Hk|]. split; [exact Hkeep|].
    split; [|split; [|split; assumption]].
    + now apply format_messages_of_loop.
    + rewrite <- rendered_as_described. now apply format_messages_of_loop.
  - intros chat_history Hcosts.
    assert (List.length chat_history = 3%nat) as Hlen.
    { rewrite <- (length_map (pair_tokens tok human_only ai_name)), Hcosts.
      reflexivity. }
    destruct (Hloop chat_history 120) as (k & Hk & Hkeep & Hfits & Hnext).
    assert (k = 2%nat) as ->.
    { rewrite Hlen in Hk, Hnext.
      assert (k = 0 \/ k = 1 \/ k = 2 \/ k = 3)%nat
        as [-> | [-> | [-> | ->]]] by lia.
      + specialize (Hnext ltac:(lia)).
        rewrite tokens_of_firstn, Hcosts in Hnext. vm_compute in Hnext.
        discriminate.
      + specialize (Hnext ltac:(lia)).
        rewrite tokens_of_firstn, Hcosts in Hnext. vm_compute in Hnext.
        discriminate.
      + reflexivity.
      + specialize (Hfits 3%nat ltac:(lia)).
        rewrite tokens_of_firstn, Hcosts in Hfits. vm_compute in Hfits.
        now elim Hfits. }
    split.
    + now apply format_messages_of_loop.
    + rewrite <- rendered_as_described. now apply format_messages_of_loop.
Qed.

Lemma format_messages_stops_at_first_overflow_witness :
  map (pair_tokens (Samples.flat 25) false "AgritechAI") Samples.turns
  = [50; 50; 50] /\
  format_messages (Samples.flat 25) Samples.turns 120 false "AgritechAI"
  = ("Human: When do I sow wheat?" ++ Samples.blank_line
     ++ "AgritechAI: In late autumn." ++ Samples.blank_line
     ++ "Human: And barley?" ++ Samples.blank_line
     ++ "AgritechAI: A few weeks earlier.")%string.
Proof.
  split; [reflexivity|].
  apply (proj2 (proj2 (format_messages_stops_at_first_overflow
                         (Samples.flat 25) false "AgritechAI")
                  Samples.turns eq_refl)).
Defined.

(** A later pair that would fit alone is not picked up once the scan has
    stopped: costs 50, 100, 10 under [L = 120] keep the first pair only. *)
Example format_messages_no_best_fit :
  let costs (s : string) : Z :=
    if (s =? "Human: And barley?")%string then 100
    else if (s =? "Human: Which fertiliser?")%string then 10
    else 50 in
  map (pair_tokens costs true "AgritechAI") Samples.turns = [50; 100; 10] /\
  format_messages costs Samples.turns 120 true "AgritechAI"
  = "Human: When do I sow wheat?".
Proof. split; reflexivity. Qed.

Lemma formatted_lines_not_empty (ai_name human_msg ai_msg : string) :
  human_msg_formatted human_msg <> "" /\
  ai_msg_formatted ai_name ai_msg <> "".
Proof.
  split.
  - unfold human_msg_formatted. simpl. discriminate.
  - unfold ai_msg_formatted. destruct ai_name; simpl; discriminate.
Qed.

(** C8, as the code has it: the loop stops on [new_tokens_used > 0], so
    a budget of 0 keeps no pair as soon as the counter charges at least
    one token for every non-empty text; [format_messages] then returns
    the empty string, for every history and in both modes. *)
Theorem format_messages_zero_budget :
  forall (get_num_tokens : string -> Z)
         (chat_history : list (string * string))
         (human_only : bool) (ai_name : string),
    (forall s : string, s <> "" -> 0 < get_num_tokens s) ->
    format_messages get_num_tokens chat_history 0 human_only ai_name = "".
Proof.
  intros tok chat_history human_only ai_name Hpos.
  assert (forall (E : Type) (keep : string -> string -> E),
             format_loop tok keep 0 human_only ai_name chat_history [] 0 = [])
    as Hnone.
  { intros E keep. destruct chat_history as [|t rest]; [reflexivity|].
    rewrite format_loop_cons.
    destruct (formatted_lines_not_empty ai_name (fst t) (snd t)) as [Hh Ha].
    apply Hpos in Hh. apply Hpos in Ha.
    assert (0 < pair_tokens tok human_only ai_name t) as Hpair.
    { unfold pair_tokens. destruct human_only; simpl; lia. }
    destruct (Z.gtb_spec (0 + pair_tokens tok human_only ai_name t) 0);
      [reflexivity|lia]. }
  unfold format_messages. destruct human_only; rewrite Hnone; reflexivity.
Qed.

Lemma format_messages_zero_budget_witness :
  format_messages Samples.per_char Samples.turns 0 false "AgritechAI" = "".
Proof.
  apply (format_messages_zero_budget Samples.per_char Samples.turns
           false "AgritechAI").
  intros s Hs. destruct s as [|c s]; [now elim Hs|].
  unfold Samples.per_char. simpl String.length. lia.
Defined.

(** C8, as stated for every token counter, fails: a counter that charges
    nothing keeps the whole history under a budget of 0. *)
Lemma format_messages_zero_budget_free_counter :
  format_messages (Samples.flat 0) [("hi", "hello")] 0 false "AgritechAI"
  = rendered false "AgritechAI" [("hi", "hello")] /\
  format_messages (Samples.flat 0) [("hi", "hello")] 0 false "AgritechAI"
  <> "".
Proof.
  split; [reflexivity|]. vm_compute. discriminate.
Qed.

End FormatClaims.

(** ** Queries *)

Section QueryFacts.

Context {A : Type} (le : A -> A -> bool).

Hypothesis le_total : forall a b, le a b = false -> le b a = true.

Lemma insert_by_perm (x : A) (rows : list A) :
  Permutation (Peewee.insert_by le x rows) (x :: rows).
Proof.
  induction rows as [|y rows IH]; simpl.
  - apply Permutation_refl.
  - destruct (le x y).
    + apply Permutation_refl.
    + eapply perm_trans; [apply perm_skip, IH|apply perm_swap].
Qed.

Lemma order_by_perm (rows : list A) :
  Permutation (Peewee.order_by le rows) rows.
Proof.
  induction rows as [|x rows IH]; simpl.
  - apply perm_nil.
  - eapply perm_trans; [apply insert_by_perm|apply perm_skip, IH].
Qed.

Lemma insert_by_hd (y x : A) (rows : list A) :
  le y x = true ->
  HdRel (fun a b => le a b = true) y rows ->
  HdRel (fun a b => le a b = true) y (Peewee.insert_by le x rows).
Proof.
  intros Hyx Hhd. destruct rows as [|z rows]; simpl.
  - now constructor.
  - destruct (le x z); constructor; auto. now inversion Hhd.
Qed.

Lemma insert_by_sorted (x : A) (rows : list A) :
  Sorted (fun a b => le a b = true) rows ->
  Sorted (fun a b => le a b = true) (Peewee.insert_by le x rows).
Proof.
  induction rows as [|y rows IH]; intros Hs; simpl.
  - repeat constructor.
  - destruct (le x y) eqn:Hxy.
    + constructor; [assumption|now constructor].
    + inversion Hs; subst. constructor.
      * now apply IH.
      * apply insert_by_hd; [now apply le_total|assumption].
Qed.

Lemma order_by_sorted (rows : list A) :
  Sorted (fun a b => le a b = true) (Peewee.order_by le rows).
Proof.
  induction rows as [|x rows IH]; simpl.
  - constructor.
  - now apply insert_by_sorted.
Qed.

Lemma first_insert_by (x : A) (rows : list A) :
  Peewee.first (Peewee.insert_by le x rows) =
  match Peewee.first rows with
  | None => Some x
  | Some y => if le x y then Some x else Some y
  end.
Proof.
  destruct rows as [|y rows]; simpl; [reflexivity|].
  now destruct (le x y).
Qed.

Lemma first_order_by_none (rows : list A) :
  Peewee.first (Peewee.order_by le rows) = None -> rows = [].
Proof.
  intros H. destruct (Peewee.order_by le rows) as [|y ys] eqn:E;
    [|discriminate].
  pose proof (order_by_perm rows) as P. rewrite E in P.
  now apply Permutation_nil in P.
Qed.

End QueryFacts.

(** ** The conversation log *)

Section ChatFacts.

Import ChatManager.

Lemma asc_total (a b : ChatMessage.t) : asc a b = false -> asc b a = true.
Proof. unfold asc. intros H. apply Z.leb_gt in H. apply Z.leb_le. lia. Qed.

Lemma desc_total (a b : ChatMessage.t) : desc a b = false -> desc b a = true.
Proof. unfold desc. intros H. apply Z.leb_gt in H. apply Z.leb_le. lia. Qed.

(** [order_by(sequence_number.desc()).first()] is a row of largest
    sequence number. *)
Lemma first_desc_is_max (rows : list ChatMessage.t) (m : ChatMessage.t) :
  Peewee.first (Peewee.order_by desc rows) = Some m ->
  In m rows /\
  forall r, In r rows ->
            ChatMessage.sequence_number r <= ChatMessage.sequence_number m.
Proof.
  revert m. induction rows as [|x rows IH]; intros m; simpl.
  - discriminate.
  - rewrite first_insert_by.
    destruct (Peewee.first (Peewee.order_by desc rows)) as [y|] eqn:Hy.
    + destruct (IH y eq_refl) as [Hin Hmax].
      unfold desc at 1. destruct (Z.leb_spec (ChatMessage.sequence_number y)
                                    (ChatMessage.sequence_number x)) as [Hle|Hgt];
        intros [= <-].
      * split; [now left|]. intros r [<-|Hr]; [lia|].
        specialize (Hmax r Hr). lia.
      * split; [now right|]. intros r [<-|Hr]; [lia|]. now apply Hmax.
    + apply first_order_by_none in Hy. subst rows.
      intros [= <-]. split; [now left|]. intros r [<-|[]]. lia.
Qed.

(** What one append does: the row it adds and the number it gives it. *)
Lemma add_message_run (namespace ai_message human_message : string) (db : table) :
  add_message namespace ai_message human_message db =
  (db ++ [ChatMessage.mk ai_message human_message
            match Peewee.first
                    (Peewee.order_by desc (filter (in_namespace namespace) db))
            with
            | None => 0
            | Some m => ChatMessage.sequence_number m + 1
            end
            namespace],
   Ok tt).
Proof. reflexivity. Qed.

Lemma sequence_numbers_app (namespace : string) (db : table) (row : ChatMessage.t) :
  sequence_numbers namespace (db ++ [row]) =
  if in_namespace namespace row
  then sequence_numbers namespace db ++ [ChatMessage.sequence_number row]
  else sequence_numbers namespace db.
Proof.
  unfold sequence_numbers. rewrite filter_app. simpl.
  destruct (in_namespace namespace row); simpl.
  - now rewrite map_app.
  - now rewrite app_nil_r.
Qed.

(** The rule of [add_message]: 0 for a namespace without rows, one more
    than the largest stored number otherwise. *)
Lemma add_message_next (namespace ai_message human_message : string) (db : table) :
  exists s,
    add_message namespace ai_message human_message db
    = (db ++ [ChatMessage.mk ai_message human_message s namespace], Ok tt) /\
    (sequence_numbers namespace db = [] -> s = 0) /\
    (forall m, In m (sequence_numbers namespace db) ->
               (forall x, In x (sequence_numbers namespace db) -> x <= m) ->
               s = m + 1).
Proof.
  rewrite add_message_run.
  destruct (Peewee.first
              (Peewee.order_by desc (filter (in_namespace namespace) db)))
    as [last_message|] eqn:Hlast.
  - exists (ChatMessage.sequence_number last_message + 1).
    destruct (first_desc_is_max _ _ Hlast) as [Hin Hmax].
    split; [reflexivity|]. split.
    + intros Hnone. unfold sequence_numbers in Hnone.
      apply map_eq_nil in Hnone. rewrite Hnone in Hin. destruct Hin.
    + intros m Hm Hbound.
      assert (ChatMessage.sequence_number last_message <= m).
      { apply Hbound. unfold sequence_numbers. now apply in_map. }
      unfold sequence_numbers in Hm. apply in_map_iff in Hm.
      destruct Hm as (r & <- & Hr). specialize (Hmax r Hr). lia.
  - exists 0. apply first_order_by_none in Hlast.
    split; [reflexivity|]. split; [reflexivity|].
    intros m Hm. unfold sequence_numbers in Hm. rewrite Hlast in Hm.
    destruct Hm.
Qed.

Lemma add_message_after_run (namespace ai_message human_message : string)
      (db : table) (n : nat) :
  sequence_numbers namespace db = map Z.of_nat (seq 0 n) ->
  add_message namespace ai_message human_message db
  = (db ++ [ChatMessage.mk ai_message human_message (Z.of_nat n) namespace],
     Ok tt).
Proof.
  intros Hrun.
  destruct (add_message_next namespace ai_message human_message db)
    as (s & Hadd & Hzero & Hnext).
  rewrite Hadd. do 3 f_equal. f_equal.
  destruct n as [|n].
  - now apply Hzero.
  - rewrite (Hnext (Z.of_nat n)); [lia| |].
    + rewrite Hrun. apply in_map. apply in_seq. lia.
    + intros x Hx. rewrite Hrun in Hx. apply in_map_iff in Hx.
      destruct Hx as (i & <- & Hi). apply in_seq in Hi. lia.
Qed.

Lemma appends_run (namespace : string) (ops : list (string * string * string)) :
  forall (db : table) (n : nat),
    sequence_numbers namespace db = map Z.of_nat (seq 0 n) ->
    sequence_numbers namespace (appends ops db)
    = map Z.of_nat (seq 0 (n + appends_to namespace ops)).
Proof.
  induction ops as [|[[ns ai] h] ops IH]; intros db n Hrun.
  - simpl. unfold appends_to. simpl. now rewrite Nat.add_0_r.
  - change (appends ((ns, ai, h) :: ops) db)
      with (appends ops (fst (add_message ns ai h db))).
    change (appends_to namespace ((ns, ai, h) :: ops))
      with (List.length
              (if (ns =? namespace)%string
               then (ns, ai, h) :: filter
                      (fun op => (fst (fst op) =? namespace)%string) ops
               else filter (fun op => (fst (fst op) =? namespace)%string) ops)).
    destruct (String.eqb_spec ns namespace) as [->|Hne].
    + rewrite (add_message_after_run _ _ _ _ _ Hrun). simpl fst.
      simpl List.length. fold (appends_to namespace ops).
      replace (n + S (appends_to namespace ops))%nat
        with (S n + appends_to namespace ops)%nat by lia.
      apply IH. rewrite sequence_numbers_app.
      unfold in_namespace.
      cbn [ChatMessage.namespace ChatMessage.sequence_number].
      rewrite String.eqb_refl, Hrun, seq_S, map_app. reflexivity.
    + fold (appends_to namespace ops).
      destruct (add_message_next ns ai h db) as (s & -> & _).
      simpl fst. apply IH. rewrite sequence_numbers_app.
      unfold in_namespace. cbn [ChatMessage.namespace].
      destruct (String.eqb_spec ns namespace); [contradiction|assumption].
Qed.

End ChatFacts.

Section ChatClaims.

Import ChatManager.

Lemma appends_to_same (namespace : string) (turns : list (string * string)) :
  appends_to namespace (map (fun t => (namespace, fst t, snd t)) turns)
  = List.length turns.
Proof.
  unfold appends_to. induction turns as [|t turns IH]; simpl; [reflexivity|].
  rewrite String.eqb_refl. simpl. now rewrite IH.
Qed.

(** C2: starting from a namespace without rows, the appends to it, made
    one after another and possibly interleaved with appends to other
    namespaces, store the sequence numbers 0, 1, ..., N-1 in append order,
    N being the number of appends to the namespace.  Each append gives
    its row 0 when the namespace has no rows and one more than the largest
    stored number otherwise. *)
Theorem appends_number_from_zero :
  forall namespace : string,
    (forall (db : table) (turns : list (string * string)),
        sequence_numbers namespace db = [] ->
        sequence_numbers namespace
          (appends (map (fun t => (namespace, fst t, snd t)) turns) db)
        = map Z.of_nat (seq 0 (List.length turns)))
    /\
    (forall (db : table) (ops : list (string * string * string)),
        sequence_numbers namespace db = [] ->
        sequence_numbers namespace (appends ops db)
        = map Z.of_nat (seq 0 (appends_to namespace ops)))
    /\
    (forall (db : table) (ai_message human_message : string),
        exists s,
          add_message namespace ai_message human_message db
          = (db ++ [ChatMessage.mk ai_message human_message s namespace],
             Ok tt) /\
          (sequence_numbers namespace db = [] -> s = 0) /\
          (forall m, In m (sequence_numbers namespace db) ->
                     (forall x, In x (sequence_numbers namespace db) -> x <= m) ->
                     s = m + 1)).
Proof.
  intros namespace.
  assert (forall (db : table) (ops : list (string * string * string)),
             sequence_numbers namespace db = [] ->
             sequence_numbers namespace (appends ops db)
             = map Z.of_nat (seq 0 (appends_to namespace ops))) as Hrun.
  { intros db ops Hnone. apply (appends_run namespace ops db 0). exact Hnone. }
  split; [|split].
  - intros db turns Hnone. rewrite (Hrun db _ Hnone).
    now rewrite appends_to_same.
  - exact Hrun.
  - intros db ai_message human_message. apply add_message_next.
Qed.

Lemma appends_number_from_zero_witness :
  sequence_numbers "u1"
    (appends [("u1", "hello", "hi"); ("u2", "hello", "hi");
              ("u1", "In late autumn.", "When do I sow wheat?")]
       [Samples.message "u2" 0])
  = [0; 1].
Proof.
  apply (proj1 (proj2 (appends_number_from_zero "u1"))
           [Samples.message "u2" 0]
           [("u1", "hello", "hi"); ("u2", "hello", "hi");
            ("u1", "In late autumn.", "When do I sow wheat?")]).
  reflexivity.
Defined.

Lemma sorted_by_number (rows : list ChatMessage.t) :
  Sorted (fun a b => asc a b = true) rows ->
  StronglySorted
    (fun a b => ChatMessage.sequence_number a <= ChatMessage.sequence_number b)
    rows.
Proof.
  intros Hs. apply Sorted_StronglySorted.
  - intros a b c Hab Hbc. lia.
  - induction Hs as [|a rows Hs IH Hhd]; constructor; [assumption|].
    destruct Hhd as [|b rows' Hab]; constructor.
    unfold asc in Hab. now apply Z.leb_le.
Qed.

Lemma in_namespace_iff (namespace : string) (row : ChatMessage.t) :
  in_namespace namespace row = true <-> ChatMessage.namespace row = namespace.
Proof. unfold in_namespace. apply String.eqb_eq. Qed.

(** C7: [retrieve_all_messages] returns the (human, assistant) pairs of
    the rows of the table whose namespace is the one asked for, each such
    row once and no other row, ordered by ascending sequence number, and
    leaves the table as it is; for a namespace without rows it returns
    the empty list and raises nothing. *)
Theorem retrieve_all_messages_ordered :
  forall (namespace : string) (db : table),
    (exists rows,
        retrieve_all_messages namespace db
        = (db, Ok (map (fun row => (ChatMessage.human_message row,
                                    ChatMessage.ai_message row)) rows)) /\
        (forall row,
            In row rows <->
            In row db /\ ChatMessage.namespace row = namespace) /\
        Permutation rows
          (filter (fun row => (ChatMessage.namespace row =? namespace)%string)
             db) /\
        StronglySorted
          (fun a b =>
             ChatMessage.sequence_number a <= ChatMessage.sequence_number b)
          rows)
    /\
    ((forall row, In row db -> ChatMessage.namespace row <> namespace) ->
     retrieve_all_messages namespace db = (db, Ok [])).
Proof.
  intros namespace db. split.
  - exists (Peewee.order_by asc (filter (in_namespace namespace) db)).
    split; [reflexivity|]. split; [|split].
    + intros row. split.
      * intros Hin.
        apply (Permutation_in _ (order_by_perm asc _)) in Hin.
        apply filter_In in Hin. destruct Hin as [Hdb Hns].
        split; [exact Hdb|]. now apply in_namespace_iff.
      * intros [Hdb Hns].
        apply (Permutation_in _ (Permutation_sym (order_by_perm asc _))).
        apply filter_In. split; [exact Hdb|]. now apply in_namespace_iff.
    + apply (order_by_perm asc (filter (in_namespace namespace) db)).
    + apply sorted_by_number, order_by_sorted, asc_total.
  - intros Hnone.
    assert (filter (in_namespace namespace) db = []) as Hempty.
    { induction db as [|row db IH]; [reflexivity|]. simpl.
      unfold in_namespace at 1.
      destruct (String.eqb_spec (ChatMessage.namespace row) namespace) as [E|_].
      - exfalso. apply (Hnone row); [now left|exact E].
      - apply IH. intros r Hr. apply Hnone. now right. }
    unfold retrieve_all_messages, gets. rewrite Hempty. reflexivity.
Qed.

Lemma retrieve_all_messages_ordered_witness :
  (exists rows,
      retrieve_all_messages "u1"
        [ChatMessage.mk "second" "b" 1 "u1"; ChatMessage.mk "other" "x" 0 "u2";
         ChatMessage.mk "first" "a" 0 "u1"]
      = ([ChatMessage.mk "second" "b" 1 "u1"; ChatMessage.mk "other" "x" 0 "u2";
          ChatMessage.mk "first" "a" 0 "u1"],
         Ok (map (fun row => (ChatMessage.human_message row,
                              ChatMessage.ai_message row)) rows)) /\
      (forall row,
          In row rows <->
          In row [ChatMessage.mk "second" "b" 1 "u1";
                  ChatMessage.mk "other" "x" 0 "u2";
                  ChatMessage.mk "first" "a" 0 "u1"] /\
          ChatMessage.namespace row = "u1") /\
      Permutation rows
        [ChatMessage.mk "second" "b" 1 "u1"; ChatMessage.mk "first" "a" 0 "u1"] /\
      StronglySorted
        (fun a b =>
           ChatMessage.sequence_number a <= ChatMessage.sequence_number b)
        rows)
  /\
  retrieve_all_messages "u3" [Samples.message "u1" 0; Samples.message "u2" 0]
  = ([Samples.message "u1" 0; Samples.message "u2" 0], Ok []).
Proof.
  split.
  - apply (proj1 (retrieve_all_messages_ordered "u1"
                    [ChatMessage.mk "second" "b" 1 "u1";
                     ChatMessage.mk "other" "x" 0 "u2";
                     ChatMessage.mk "first" "a" 0 "u1"])).
  - apply (proj2 (retrieve_all_messages_ordered "u3"
                    [Samples.message "u1" 0; Samples.message "u2" 0])).
    intros row [<-|[<-|[]]]; simpl; discriminate.
Defined.

(** Rows stored out of order come back in order. *)
Example retrieve_all_messages_sorts :
  retrieve_all_messages "u1"
    [ChatMessage.mk "second" "b" 1 "u1"; ChatMessage.mk "other" "x" 0 "u2";
     ChatMessage.mk "first" "a" 0 "u1"]
  = ([ChatMessage.mk "second" "b" 1 "u1"; ChatMessage.mk "other" "x" 0 "u2";
      ChatMessage.mk "first" "a" 0 "u1"],
     Ok [("a", "first"); ("b", "second")]).
Proof. reflexivity. Qed.

(** Two namespaces do not see each other's appends. *)
Example appends_are_per_namespace :
  let db := appends [("u1", "hello", "hi"); ("u2", "hello", "hi")] [] in
  snd (retrieve_all_messages "u1" db) = Ok [("hi", "hello")].
Proof. reflexivity. Qed.

End ChatClaims.

(** ** The file registry *)

Section FileFacts.

Import FileDBManager.

Lemma first_filter_some {A : Type} (p : A -> bool) (rows : list A) (x : A) :
  In x rows -> p x = true -> exists y, Peewee.first (filter p rows) = Some y.
Proof.
  intros Hin Hp.
  destruct (filter p rows) as [|y ys] eqn:E.
  - assert (In x (filter p rows)) as H by (apply filter_In; auto).
    rewrite E in H. destruct H.
  - now exists y.
Qed.

Lemma filter_none {A : Type} (p : A -> bool) (rows : list A) :
  (forall x, In x rows -> p x = false) -> filter p rows = [].
Proof.
  induction rows as [|x rows IH]; intros H; simpl; [reflexivity|].
  rewrite (H x (or_introl eq_refl)). apply IH. intros y Hy. apply H. now right.
Qed.

Lemma has_name_false (filename : string) (file : File.t) :
  File.filename file <> filename -> has_name filename file = false.
Proof. unfold has_name. intros H. now apply String.eqb_neq. Qed.

Lemma file_to_pydantic_of_model (file_model : FileModel.t) (b : list Byte.byte) :
  FileModel.file_bytes file_model = Some b ->
  file_to_pydantic (pydantic_to_file file_model) = Ok file_model.
Proof.
  destruct file_model as [n d t v c fb]. simpl. intros ->. reflexivity.
Qed.

Lemma file_to_pydantic_no_bytes (file : File.t) :
  File.file_bytes file = None ->
  file_to_pydantic file
  = Raise (TypeError "cannot convert 'NoneType' object to bytes").
Proof. unfold file_to_pydantic. intros ->. reflexivity. Qed.

(** A record with its bytes present is stored and read back as it was
    given. *)
Lemma add_file_then_get (db : table) (file_model : FileModel.t)
      (b : list Byte.byte) :
  FileModel.file_bytes file_model = Some b ->
  (forall stored, In stored db ->
                  File.filename stored <> FileModel.filename file_model) ->
  add_file file_model db
  = (db ++ [pydantic_to_file file_model], Ok file_model) /\
  get_file_by_name (FileModel.filename file_model)
    (db ++ [pydantic_to_file file_model])
  = (db ++ [pydantic_to_file file_model], Ok (Some file_model)).
Proof.
  intros Hb Hfresh.
  assert (filter (has_name (FileModel.filename file_model)) db = []) as Hnone.
  { apply filter_none. intros x Hx. apply has_name_false. now apply Hfresh. }
  split.
  - unfold add_file, bind, gets, modify, lift. rewrite Hnone. simpl.
    now rewrite (file_to_pydantic_of_model _ _ Hb).
  - unfold get_file_by_name, bind, gets, lift, ret.
    rewrite filter_app, Hnone. simpl.
    unfold has_name at 1. simpl File.filename. rewrite String.eqb_refl. simpl.
    now rewrite (file_to_pydantic_of_model _ _ Hb).
Qed.

(** [delete_file] on a name that is not stored. *)
Lemma delete_file_missing (db : table) (filename : string) :
  (forall stored, In stored db -> File.filename stored <> filename) ->
  delete_file filename db = (db, Raise (ValueError "Invalid collection/file")).
Proof.
  intros Hfresh.
  assert (filter (has_name filename) db = []) as Hnone.
  { apply filter_none. intros x Hx. apply has_name_false. now apply Hfresh. }
  unfold delete_file, get_file_by_name, bind, gets, ret, raise.
  rewrite Hnone. reflexivity.
Qed.

(** [delete_file] on a stored name whose first row has its bytes: every
    row of that name goes, and the count is the number of rows removed,
    which is 1 when the name is stored once. *)
Lemma delete_file_present (db : table) (filename : string)
      (file : File.t) (others : list File.t) (b : list Byte.byte) :
  filter (has_name filename) db = file :: others ->
  File.file_bytes file = Some b ->
  delete_file filename db
  = (filter (fun r => negb (has_name filename r)) db,
     Ok (1 + Z.of_nat (List.length others))).
Proof.
  intros Hrows Hb.
  assert (exists r, file_to_pydantic file = Ok r) as [r Hr].
  { unfold file_to_pydantic. rewrite Hb. simpl. eauto. }
  unfold delete_file, get_file_by_name, bind, gets, ret, lift.
  rewrite Hrows. unfold Peewee.first. cbn [hd_error]. rewrite Hr.
  unfold Peewee.delete_where. rewrite Hrows.
  do 2 f_equal. simpl List.length. lia.
Qed.

End FileFacts.

Section FileClaims.

Import FileDBManager.

(** C6: when a row with the record's filename is already stored,
    [add_file] raises [ValueError("File already exists")], the error the
    registry has for a duplicate key, and the table, with the row stored
    before, is left as it was. *)
Theorem add_file_rejects_duplicate :
  forall (db : table) (file_model : FileModel.t),
    (exists stored,
        In stored db /\
        File.filename stored = FileModel.filename file_model) ->
    add_file file_model db = (db, Raise (ValueError "File already exists")).
Proof.
  intros db file_model (stored & Hin & Hname).
  destruct (first_filter_some (has_name (FileModel.filename file_model))
              db stored Hin) as [existing_file Hfirst].
  - unfold has_name. rewrite Hname. apply String.eqb_refl.
  - unfold add_file, bind, gets, raise. rewrite Hfirst. reflexivity.
Qed.

Lemma add_file_rejects_duplicate_witness :
  add_file Samples.with_bytes [pydantic_to_file Samples.with_bytes]
  = ([pydantic_to_file Samples.with_bytes],
     Raise (ValueError "File already exists")).
Proof.
  apply (add_file_rejects_duplicate
           [pydantic_to_file Samples.with_bytes] Samples.with_bytes).
  exists (pydantic_to_file Samples.with_bytes).
  split; [simpl; auto|reflexivity].
Defined.

(** The record of the module's own test goes in and comes back. *)
Example add_file_then_get_test_file :
  add_file Samples.with_bytes []
  = ([pydantic_to_file Samples.with_bytes], Ok Samples.with_bytes) /\
  get_file_by_name "Test File" [pydantic_to_file Samples.with_bytes]
  = ([pydantic_to_file Samples.with_bytes], Ok (Some Samples.with_bytes)).
Proof. split; reflexivity. Qed.

(** C10 at a record without bytes: for every table that does not hold
    the filename and every record whose [file_bytes] is [None],
    [add_file] stores the row and then raises [TypeError] from
    [bytes(None)] in [file_to_pydantic] instead of returning the record,
    and [get_file_by_name] on that filename raises the same error instead
    of returning the record. *)
Theorem add_file_without_bytes_raises :
  forall (db : table) (file_model : FileModel.t),
    FileModel.file_bytes file_model = None ->
    (forall stored, In stored db ->
                    File.filename stored <> FileModel.filename file_model) ->
    add_file file_model db
    = (db ++ [pydantic_to_file file_model],
       Raise (TypeError "cannot convert 'NoneType' object to bytes")) /\
    get_file_by_name (FileModel.filename file_model)
      (db ++ [pydantic_to_file file_model])
    = (db ++ [pydantic_to_file file_model],
       Raise (TypeError "cannot convert 'NoneType' object to bytes")).
Proof.
  intros db file_model Hb Hfresh.
  assert (filter (has_name (FileModel.filename file_model)) db = []) as Hnone.
  { apply filter_none. intros x Hx. apply has_name_false. now apply Hfresh. }
  assert (File.file_bytes (pydantic_to_file file_model) = None) as Hrow
      by exact Hb.
  split.
  - unfold add_file, bind, gets, modify, lift. rewrite Hnone. simpl.
    now rewrite (file_to_pydantic_no_bytes _ Hrow).
  - unfold get_file_by_name, bind, gets, lift, ret.
    rewrite filter_app, Hnone. simpl.
    unfold has_name at 1. simpl File.filename. rewrite String.eqb_refl. simpl.
    now rewrite (file_to_pydantic_no_bytes _ Hrow).
Qed.

Lemma add_file_without_bytes_raises_witness :
  add_file Samples.no_bytes []
  = ([pydantic_to_file Samples.no_bytes],
     Raise (TypeError "cannot convert 'NoneType' object to bytes")) /\
  get_file_by_name "notes.txt" [pydantic_to_file Samples.no_bytes]
  = ([pydantic_to_file Samples.no_bytes],
     Raise (TypeError "cannot convert 'NoneType' object to bytes")).
Proof.
  apply (add_file_without_bytes_raises [] Samples.no_bytes).
  - reflexivity.
  - intros stored [].
Defined.

(** A table that holds a row without bytes is reached through the
    registry's own operations. *)
Example insert_many_stores_no_bytes :
  insert_many [Samples.no_bytes] []
  = ([pydantic_to_file Samples.no_bytes], Ok tt).
Proof. reflexivity. Qed.

(** C9 at a stored record without bytes: when the first row stored
    under the filename has [file_bytes] [None], the pre-check of
    [delete_file] reads it through [file_to_pydantic], so [bytes(None)]
    raises [TypeError]; no count is returned and every row is still
    there. *)
Theorem delete_file_without_bytes_raises :
  forall (db : table) (filename : string) (file : File.t)
         (others : list File.t),
    filter (has_name filename) db = file :: others ->
    File.file_bytes file = None ->
    delete_file filename db
    = (db, Raise (TypeError "cannot convert 'NoneType' object to bytes")).
Proof.
  intros db filename file others Hrows Hb.
  unfold delete_file, get_file_by_name, bind, gets, ret, lift.
  rewrite Hrows. unfold Peewee.first. cbn [hd_error].
  rewrite (file_to_pydantic_no_bytes _ Hb). reflexivity.
Qed.

Lemma delete_file_without_bytes_raises_witness :
  delete_file "notes.txt" [pydantic_to_file Samples.no_bytes]
  = ([pydantic_to_file Samples.no_bytes],
     Raise (TypeError "cannot convert 'NoneType' object to bytes")).
Proof.
  apply (delete_file_without_bytes_raises
           [pydantic_to_file Samples.no_bytes] "notes.txt"
           (pydantic_to_file Samples.no_bytes) []).
  - reflexivity.
  - reflexivity.
Defined.

(** Where the stored record has its bytes, [delete_file] does what is
    asked of it. *)
Example delete_file_test_file :
  delete_file "Test File" [pydantic_to_file Samples.with_bytes] = ([], Ok 1) /\
  delete_file "Test File" [] = ([], Raise (ValueError "Invalid collection/file")).
Proof. split; reflexivity. Qed.

End FileClaims.

(** ** One turn of the assistant *)

Section TurnClaims.

Import KnowledgeManager.

Variable get_num_tokens : string -> Z.
Variable conversattion_limit : Z.
Variable docs_limit : Z.
Variable query_data : string -> string -> outcome (list Document).
Variable arun : string -> string -> string -> outcome string.

Local Abbreviation chat_of :=
  (AIResponder.knowledge_manager_chat get_num_tokens conversattion_limit
     docs_limit query_data arun).
Local Abbreviation respond :=
  (AIResponder.generate_response get_num_tokens conversattion_limit
     docs_limit query_data arun).

(** The turn reaches [add_message] only with the answer of [chat]. *)
Lemma generate_response_run (text user_id : string) (db : ChatManager.table)
      (chat_history : list (string * string)) :
  ChatManager.retrieve_all_messages user_id db = (db, Ok chat_history) ->
  respond text user_id db =
  match chat_of text chat_history with
  | Ok ai_response =>
      (fst (ChatManager.add_message user_id ai_response text db),
       Ok ai_response)
  | Raise e => (db, Raise e)
  | Diverge => (db, Diverge)
  end.
Proof.
  intros Hhist. unfold respond, AIResponder.generate_response, bind.
  rewrite Hhist. unfold lift. fold chat_of.
  destruct (chat_of text chat_history); try reflexivity.
Qed.

(** C5: when the retrieval call or the model call of [chat] raises, the
    turn ends with that error and the conversation log is the one the
    turn started from: [add_message] is not reached. *)
Theorem failed_turn_is_not_logged :
  forall (text user_id : string) (db : ChatManager.table)
         (chat_history : list (string * string)) (e : exn),
    ChatManager.retrieve_all_messages user_id db = (db, Ok chat_history) ->
    (query_data
       (combined get_num_tokens conversattion_limit text chat_history) "data"
     = Raise e
     \/
     exists docs kept,
       query_data
         (combined get_num_tokens conversattion_limit text chat_history) "data"
       = Ok docs /\
       _reduce_tokens_below_limit get_num_tokens docs docs_limit = Ok kept /\
       arun text
         (format_messages get_num_tokens chat_history conversattion_limit
            false "AgritechAI")
         (Py.join (Py.LF ++ Py.LF) (map page_content kept))
       = Raise e) ->
    AIResponder.generate_response get_num_tokens conversattion_limit
      docs_limit query_data arun text user_id db
    = (db, Raise e).
Proof.
  intros text user_id db chat_history e Hhist Hfail.
  fold respond. rewrite (generate_response_run _ _ _ _ Hhist).
  assert (chat_of text chat_history = Raise e) as ->; [|reflexivity].
  unfold chat_of, AIResponder.knowledge_manager_chat, chat.
  destruct Hfail as [Hquery|(docs & kept & Hquery & Hreduce & Hmodel)].
  - rewrite Hquery. reflexivity.
  - rewrite Hquery. simpl. rewrite Hreduce. simpl. exact Hmodel.
Qed.

End TurnClaims.

Section TurnExamples.

Import Samples.

Lemma failed_turn_is_not_logged_witness :
  AIResponder.generate_response Samples.per_char 800 3000
    vector_store_down model "When do I sow wheat?" "u1" [Samples.message "u1" 0]
  = ([Samples.message "u1" 0],
     Raise (CollaboratorError "vector store unavailable"))
  /\
  AIResponder.generate_response Samples.per_char 800 3000
    vector_store model_down "When do I sow wheat?" "u1" [Samples.message "u1" 0]
  = ([Samples.message "u1" 0], Raise (CollaboratorError "model unavailable")).
Proof.
  split.
  - apply (failed_turn_is_not_logged Samples.per_char 800 3000
             vector_store_down model "When do I sow wheat?" "u1"
             [Samples.message "u1" 0] [("hi", "hello")]).
    + reflexivity.
    + left. reflexivity.
  - apply (failed_turn_is_not_logged Samples.per_char 800 3000
             vector_store model_down "When do I sow wheat?" "u1"
             [Samples.message "u1" 0] [("hi", "hello")]).
    + reflexivity.
    + right. exists Samples.passages, Samples.passages.
      split; [reflexivity|]. split; reflexivity.
Defined.

(** A turn whose calls all return is appended with the next number. *)
Example answered_turn_is_logged :
  AIResponder.generate_response Samples.per_char 800 3000
    vector_store model "When do I sow wheat?" "u1" [Samples.message "u1" 0]
  = ([Samples.message "u1" 0;
      ChatMessage.mk "Sow it in late autumn." "When do I sow wheat?" 1 "u1"],
     Ok "Sow it in late autumn.").
Proof. reflexivity. Qed.

End TurnExamples.

(** * Further properties of the code *)

(** ** The file registry, operation by operation *)

Section RegistryProperties.

Import FileDBManager.

Lemma filter_has_name_none (db : table) (filename : string) :
  (forall stored, In stored db -> File.filename stored <> filename) ->
  filter (has_name filename) db = [].
Proof.
  intros Hfresh. apply filter_none. intros x Hx.
  apply has_name_false. now apply Hfresh.
Qed.

(** A name that is not stored is answered with [None], not with an
    error, and the table is left alone. *)
Theorem get_file_by_name_absent :
  forall (db : table) (filename : string),
    (forall stored, In stored db -> File.filename stored <> filename) ->
    get_file_by_name filename db = (db, Ok None).
Proof.
  intros db filename Hfresh.
  unfold get_file_by_name, bind, gets, ret.
  now rewrite (filter_has_name_none _ _ Hfresh).
Qed.

Lemma get_file_by_name_absent_witness :
  get_file_by_name "missing.txt" [pydantic_to_file Samples.with_bytes]
  = ([pydantic_to_file Samples.with_bytes], Ok None).
Proof.
  apply (get_file_by_name_absent [pydantic_to_file Samples.with_bytes]
           "missing.txt").
  intros stored [<-|[]]. simpl. discriminate.
Defined.

Lemma add_file_then_get_witness :
  add_file Samples.with_bytes []
  = ([] ++ [pydantic_to_file Samples.with_bytes], Ok Samples.with_bytes) /\
  get_file_by_name (FileModel.filename Samples.with_bytes)
    ([] ++ [pydantic_to_file Samples.with_bytes])
  = ([] ++ [pydantic_to_file Samples.with_bytes],
     Ok (Some Samples.with_bytes)).
Proof.
  apply (add_file_then_get [] Samples.with_bytes
           [Byte.x53; Byte.x6f; Byte.x6d; Byte.x65]).
  - reflexivity.
  - intros stored [].
Defined.

Lemma delete_file_missing_witness :
  delete_file "missing.txt" [pydantic_to_file Samples.with_bytes]
  = ([pydantic_to_file Samples.with_bytes],
     Raise (ValueError "Invalid collection/file")).
Proof.
  apply (delete_file_missing [pydantic_to_file Samples.with_bytes]
           "missing.txt").
  intros stored [<-|[]]. simpl. discriminate.
Defined.

Lemma filter_filter_negb {A : Type} (p : A -> bool) (rows : list A) :
  filter p (filter (fun r => negb (p r)) rows) = [].
Proof.
  apply filter_none. intros x Hx. apply filter_In in Hx.
  destruct Hx as [_ Hx]. now destruct (p x).
Qed.

Lemma filter_unique_name (db : table) (filename : string) :
  NoDup (map File.filename db) ->
  (List.length (filter (has_name filename) db) <= 1)%nat.
Proof.
  induction db as [|row db IH]; intros Hnd; simpl; [lia|].
  inversion Hnd as [|? ? Hnotin Hnd']; subst.
  unfold has_name at 1.
  destruct (String.eqb_spec (File.filename row) filename) as [E|_].
  - rewrite filter_has_name_none; [simpl; lia|].
    intros stored Hin Hname. apply Hnotin. rewrite E, <- Hname.
    now apply in_map.
  - now apply IH.
Qed.

(** Deleting a stored name whose first row has its bytes removes every
    row of that name and only those, returns how many went (one, when
    names are unique), and the name is absent afterwards. *)
Theorem delete_file_removes :
  forall (db : table) (filename : string) (file : File.t)
         (others : list File.t) (b : list Byte.byte),
    filter (has_name filename) db = file :: others ->
    File.file_bytes file = Some b ->
    exists db',
      delete_file filename db
      = (db', Ok (Z.of_nat (List.length (file :: others)))) /\
      (forall row, In row db' <->
                   In row db /\ File.filename row <> filename) /\
      get_file_by_name filename db' = (db', Ok None) /\
      (NoDup (map File.filename db) ->
       delete_file filename db = (db', Ok 1)).
Proof.
  intros db filename file others b Hrows Hb.
  exists (filter (fun r => negb (has_name filename r)) db).
  assert (delete_file filename db
          = (filter (fun r => negb (has_name filename r)) db,
             Ok (Z.of_nat (List.length (file :: others))))) as Hdel.
  { rewrite (delete_file_present _ _ _ _ _ Hrows Hb).
    do 2 f_equal. simpl List.length. lia. }
  split; [exact Hdel|]. split; [|split].
  - intros row. rewrite filter_In. unfold has_name.
    destruct (String.eqb_spec (File.filename row) filename); simpl;
      intuition congruence.
  - unfold get_file_by_name, bind, gets, ret.
    now rewrite filter_filter_negb.
  - intros Hnd. rewrite Hdel.
    pose proof (filter_unique_name db filename Hnd) as Hle.
    rewrite Hrows in Hle. cbn [List.length] in Hle.
    assert (List.length others = 0%nat) as Hnone by lia.
    cbn [List.length]. rewrite Hnone. reflexivity.
Qed.

Lemma delete_file_removes_witness :
  exists db',
    delete_file "Test File"
      [pydantic_to_file Samples.with_bytes; pydantic_to_file Samples.no_bytes]
    = (db', Ok 1) /\
    (forall row,
        In row db' <->
        In row [pydantic_to_file Samples.with_bytes;
                pydantic_to_file Samples.no_bytes] /\
        File.filename row <> "Test File") /\
    get_file_by_name "Test File" db' = (db', Ok None) /\
    (NoDup (map File.filename
              [pydantic_to_file Samples.with_bytes;
               pydantic_to_file Samples.no_bytes]) ->
     delete_file "Test File"
       [pydantic_to_file Samples.with_bytes; pydantic_to_file Samples.no_bytes]
     = (db', Ok 1)).
Proof.
  apply (delete_file_removes
           [pydantic_to_file Samples.with_bytes;
            pydantic_to_file Samples.no_bytes]
           "Test File" (pydantic_to_file Samples.with_bytes) []
           [Byte.x53; Byte.x6f; Byte.x6d; Byte.x65]).
  - reflexivity.
  - reflexivity.
Defined.

(** [add_file] never creates a second row for a name: a table with
    pairwise distinct filenames stays so, whether the call returns or
    raises. *)
Theorem add_file_keeps_names_unique :
  forall (db : table) (file_model : FileModel.t),
    NoDup (map File.filename db) ->
    NoDup (map File.filename (fst (add_file file_model db))).
Proof.
  intros db file_model Hnd.
  unfold add_file, bind, gets, raise, modify, lift.
  destruct (Peewee.first
              (filter (has_name (FileModel.filename file_model)) db))
    as [existing_file|] eqn:Hfirst; simpl.
  - exact Hnd.
  - assert (~ In (FileModel.filename file_model) (map File.filename db))
      as Hnew.
    { intros Hin. apply in_map_iff in Hin. destruct Hin as (r & Hr & Hin).
      assert (In r (filter (has_name (FileModel.filename file_model)) db))
        as Hf.
      { apply filter_In. split; [exact Hin|].
        unfold has_name. rewrite Hr. apply String.eqb_refl. }
      destruct (filter (has_name (FileModel.filename file_model)) db);
        [destruct Hf|discriminate]. }
    assert (NoDup (map File.filename (db ++ [pydantic_to_file file_model])))
      as Hadded.
    { rewrite map_app. simpl.
      apply (Permutation_NoDup (Permutation_cons_append _ _)).
      now constructor. }
    destruct (file_to_pydantic (pydantic_to_file file_model)); exact Hadded.
Qed.

Lemma add_file_keeps_names_unique_witness :
  NoDup (map File.filename
           (fst (add_file Samples.no_bytes
                   [pydantic_to_file Samples.with_bytes]))).
Proof.
  apply (add_file_keeps_names_unique [pydantic_to_file Samples.with_bytes]
           Samples.no_bytes).
  simpl. constructor; [intros []|constructor].
Defined.

End RegistryProperties.

Section RegistryListing.

Import FileDBManager.

Lemma filter_has_name_app_other (db : table) (file_model : FileModel.t)
      (other : string) :
  other <> FileModel.filename file_model ->
  filter (has_name other) (db ++ [pydantic_to_file file_model])
  = filter (has_name other) db.
Proof.
  intros Hne. rewrite filter_app. simpl.
  unfold has_name at 2. simpl File.filename.
  destruct (String.eqb_spec (FileModel.filename file_model) other) as [E|_].
  - now elim Hne.
  - apply app_nil_r.
Qed.

(** Adding a record, whether it returns or raises, changes what
    [get_file_by_name] answers for no other name. *)
Theorem add_file_leaves_other_names :
  forall (db : table) (file_model : FileModel.t) (other : string),
    other <> FileModel.filename file_model ->
    snd (get_file_by_name other (fst (add_file file_model db)))
    = snd (get_file_by_name other db).
Proof.
  intros db file_model other Hne.
  assert (fst (add_file file_model db) = db \/
          fst (add_file file_model db) = db ++ [pydantic_to_file file_model])
    as [-> | ->].
  { unfold add_file, bind, gets, raise, modify, lift.
    destruct (Peewee.first
                (filter (has_name (FileModel.filename file_model)) db));
      simpl; [now left|].
    destruct (file_to_pydantic (pydantic_to_file file_model)); now right. }
  - reflexivity.
  - unfold get_file_by_name, bind, gets, ret, lift.
    rewrite (filter_has_name_app_other _ _ _ Hne).
    destruct (Peewee.first (filter (has_name other) db)) as [file|];
      [|reflexivity].
    destruct (file_to_pydantic file); reflexivity.
Qed.

Lemma add_file_leaves_other_names_witness :
  snd (get_file_by_name "Test File"
         (fst (add_file Samples.no_bytes
                 [pydantic_to_file Samples.with_bytes])))
  = Ok (Some Samples.with_bytes).
Proof.
  apply (add_file_leaves_other_names [pydantic_to_file Samples.with_bytes]
           Samples.no_bytes "Test File").
  simpl. discriminate.
Defined.

Lemma to_pydantic_all_app (xs ys : list File.t)
      (ms ns : list FileModel.t) :
  to_pydantic_all xs = Ok ms ->
  to_pydantic_all ys = Ok ns ->
  to_pydantic_all (xs ++ ys) = Ok (ms ++ ns).
Proof.
  revert ms. induction xs as [|x xs IH]; intros ms Hxs Hys; simpl in *.
  - inversion Hxs; subst. exact Hys.
  - destruct (file_to_pydantic x) as [m| |]; simpl in *; try discriminate.
    destruct (to_pydantic_all xs) as [ms'| |]; simpl in *; try discriminate.
    inversion Hxs; subst. now rewrite (IH ms' eq_refl Hys).
Qed.

Lemma to_pydantic_all_of_models (rows : list FileModel.t) :
  (forall row, In row rows -> FileModel.file_bytes row <> None) ->
  to_pydantic_all (map pydantic_to_file rows) = Ok rows.
Proof.
  induction rows as [|row rows IH]; intros Hb; simpl; [reflexivity|].
  destruct (FileModel.file_bytes row) as [b|] eqn:E.
  - rewrite (file_to_pydantic_of_model row b E). simpl.
    rewrite IH; [reflexivity|]. intros r Hr. apply Hb. now right.
  - exfalso. apply (Hb row); [now left|exact E].
Qed.

(** What [insert_many] stores, [get_all] lists: after a bulk insert of
    records that all have their bytes, the listing is the listing from
    before followed by the records, in the order given. *)
Theorem insert_many_then_get_all :
  forall (db : table) (listed rows : list FileModel.t),
    get_all db = (db, Ok listed) ->
    (forall row, In row rows -> FileModel.file_bytes row <> None) ->
    insert_many rows db = (db ++ map pydantic_to_file rows, Ok tt) /\
    get_all (db ++ map pydantic_to_file rows)
    = (db ++ map pydantic_to_file rows, Ok (listed ++ rows)).
Proof.
  intros db listed rows Hlisted Hb. split; [reflexivity|].
  unfold get_all in *. f_equal.
  apply to_pydantic_all_app.
  - now inversion Hlisted.
  - now apply to_pydantic_all_of_models.
Qed.

Lemma insert_many_then_get_all_witness :
  insert_many [Samples.with_bytes] []
  = ([] ++ map pydantic_to_file [Samples.with_bytes], Ok tt) /\
  get_all ([] ++ map pydantic_to_file [Samples.with_bytes])
  = ([] ++ map pydantic_to_file [Samples.with_bytes],
     Ok ([] ++ [Samples.with_bytes])).
Proof.
  apply (insert_many_then_get_all [] [] [Samples.with_bytes]).
  - reflexivity.
  - intros row [<-|[]]. simpl. discriminate.
Defined.

(** [get_all] returns a listing exactly when every stored row has its
    bytes; one row without bytes, wherever it is, makes the whole listing
    raise [TypeError]. *)
Theorem get_all_raises_iff_row_without_bytes :
  forall db : table,
    ((exists file, In file db /\ File.file_bytes file = None) <->
     get_all db
     = (db, Raise (TypeError "cannot convert 'NoneType' object to bytes")))
    /\
    ((forall file, In file db -> File.file_bytes file <> None) <->
     exists listed, get_all db = (db, Ok listed)).
Proof.
  intros db.
  assert (forall files : list File.t,
             (exists file, In file files /\ File.file_bytes file = None) /\
             to_pydantic_all files
             = Raise (TypeError "cannot convert 'NoneType' object to bytes")
             \/
             (forall file, In file files -> File.file_bytes file <> None) /\
             exists listed, to_pydantic_all files = Ok listed) as Hcases.
  { induction files as [|file files IH].
    - right. split; [intros file []|]. now exists [].
    - destruct (File.file_bytes file) as [b|] eqn:Hb.
      + destruct IH as [[(bad & Hin & Hbad) Hraise]|[Hall (listed & Hok)]].
        * left. split; [exists bad; split; [now right|exact Hbad]|].
          simpl. unfold file_to_pydantic at 1. rewrite Hb. simpl.
          now rewrite Hraise.
        * right. split.
          -- intros f [<-|Hf]; [congruence|now apply Hall].
          -- simpl. unfold file_to_pydantic at 1. rewrite Hb. simpl.
             rewrite Hok. simpl. eauto.
      + left. split; [exists file; split; [now left|exact Hb]|].
        simpl. now rewrite (file_to_pydantic_no_bytes _ Hb). }
  unfold get_all.
  destruct (Hcases db) as [[Hbad Hraise]|[Hall (listed & Hok)]].
  - rewrite Hraise. split; split.
    + reflexivity.
    + intros _. exact Hbad.
    + intros Hall. destruct Hbad as (file & Hin & Hnone).
      now elim (Hall file Hin).
    + intros (listed & Hok). discriminate.
  - rewrite Hok. split; split.
    + intros (file & Hin & Hnone). now elim (Hall file Hin).
    + discriminate.
    + intros _. now exists listed.
    + intros _. exact Hall.
Qed.

(** [delete_all] empties the table and reports how many rows it held;
    the listing that follows is empty. *)
Theorem delete_all_then_get_all :
  forall db : table,
    delete_all db = ([], Ok (Z.of_nat (List.length db))) /\
    get_all (fst (delete_all db)) = ([], Ok []).
Proof.
  intros db.
  assert (delete_all db = ([], Ok (Z.of_nat (List.length db)))) as Hdel.
  { unfold delete_all, Peewee.delete_where.
    assert (filter (fun _ : File.t => true) db = db) as ->.
    { induction db as [|r db IH]; simpl; [reflexivity|now rewrite IH]. }
    assert (filter (fun r : File.t => negb true) db = []) as ->.
    { apply filter_none. reflexivity. }
    reflexivity. }
  split; [exact Hdel|]. rewrite Hdel. reflexivity.
Qed.

End RegistryListing.

(** ** The conversation log, turn after turn *)

Section LogProperties.

Import ChatManager.



(** The number [add_message] gives is above every number the namespace
    holds. *)
Lemma add_message_number_is_new (namespace ai_message human_message : string)
      (db : table) :
  exists s,
    add_message namespace ai_message human_message db
    = (db ++ [ChatMessage.mk ai_message human_message s namespace], Ok tt) /\
    forall row, In row (filter (in_namespace namespace) db) ->
                ChatMessage.sequence_number row < s.
Proof.
  rewrite add_message_run.
  destruct (Peewee.first
              (Peewee.order_by desc (filter (in_namespace namespace) db)))
    as [last_message|] eqn:Hlast.
  - exists (ChatMessage.sequence_number last_message + 1).
    split; [reflexivity|]. intros row Hrow.
    destruct (first_desc_is_max _ _ Hlast) as [_ Hmax].
    specialize (Hmax row Hrow). lia.
  - exists 0. split; [reflexivity|].
    apply first_order_by_none in Hlast. rewrite Hlast. intros row [].
Qed.

Lemma filter_namespace_app (namespace : string) (db : table)
      (row : ChatMessage.t) :
  filter (in_namespace namespace) (db ++ [row])
  = if (ChatMessage.namespace row =? namespace)%string
    then filter (in_namespace namespace) db ++ [row]
    else filter (in_namespace namespace) db.
Proof.
  rewrite filter_app. simpl. unfold in_namespace at 2.
  destruct (ChatMessage.namespace row =? namespace)%string;
    [reflexivity|apply app_nil_r].
Qed.



(** An append to one namespace changes the history of no other. *)
Theorem add_message_leaves_other_namespaces :
  forall (namespace other ai_message human_message : string) (db : table),
    other <> namespace ->
    snd (retrieve_all_messages other
           (fst (add_message namespace ai_message human_message db)))
    = snd (retrieve_all_messages other db).
Proof.
  intros namespace other ai_message human_message db Hne.
  rewrite add_message_run. cbn [fst].
  unfold retrieve_all_messages, gets. cbn [snd].
  rewrite filter_namespace_app. cbn [ChatMessage.namespace].
  destruct (String.eqb_spec namespace other) as [E|_]; [|reflexivity].
  now elim Hne.
Qed.

Lemma add_message_leaves_other_namespaces_witness :
  snd (retrieve_all_messages "u2"
         (fst (add_message "u1" "In late autumn." "When do I sow wheat?"
                 [Samples.message "u2" 0])))
  = Ok [("hi", "hello")].
Proof.
  apply (add_message_leaves_other_namespaces "u1" "u2" "In late autumn."
           "When do I sow wheat?" [Samples.message "u2" 0]).
  discriminate.
Defined.

(** Appends never reuse a number: if the numbers stored for a namespace
    are pairwise distinct, they still are after an append to any
    namespace, on a table in any state (gaps, any starting number). *)
Theorem add_message_keeps_numbers_distinct :
  forall (namespace target ai_message human_message : string) (db : table),
    NoDup (sequence_numbers namespace db) ->
    NoDup (sequence_numbers namespace
             (fst (add_message target ai_message human_message db))).
Proof.
  intros namespace target ai_message human_message db Hnd.
  destruct (add_message_number_is_new target ai_message human_message db)
    as (s & -> & Hnew).
  cbn [fst]. rewrite sequence_numbers_app. unfold in_namespace.
  cbn [ChatMessage.namespace ChatMessage.sequence_number].
  destruct (String.eqb_spec target namespace) as [->|_]; [|exact Hnd].
  apply (Permutation_NoDup (Permutation_cons_append _ _)).
  constructor; [|exact Hnd].
  unfold sequence_numbers. intros Hin. apply in_map_iff in Hin.
  destruct Hin as (row & Hs & Hrow). specialize (Hnew row Hrow). lia.
Qed.

Lemma add_message_keeps_numbers_distinct_witness :
  NoDup (sequence_numbers "u1"
           (fst (add_message "u1" "hello" "hi"
                   [Samples.message "u1" 7; Samples.message "u1" 3]))).
Proof.
  apply (add_message_keeps_numbers_distinct "u1" "u1" "hello" "hi"
           [Samples.message "u1" 7; Samples.message "u1" 3]).
  simpl. constructor.
  - intros [H|[]]. discriminate H.
  - constructor; [intros []|constructor].
Defined.

End LogProperties.

(** ** Trimming, beyond the worked cases *)

Section TrimmingProperties.

Import KnowledgeManager.

Variable get_num_tokens : string -> Z.

Hypothesis tokens_nonneg : forall s : string, 0 <= get_num_tokens s.

Lemma pair_tokens_nonneg (human_only : bool) (ai_name : string)
      (t : string * string) :
  0 <= pair_tokens get_num_tokens human_only ai_name t.
Proof.
  unfold pair_tokens.
  pose proof (tokens_nonneg (human_msg_formatted (fst t))).
  pose proof (tokens_nonneg (ai_msg_formatted ai_name (snd t))).
  destruct human_only; simpl; lia.
Qed.

Lemma tokens_of_nonneg (human_only : bool) (ai_name : string)
      (turns : list (string * string)) :
  0 <= tokens_of get_num_tokens human_only ai_name turns.
Proof.
  unfold tokens_of. apply sum_nonneg. intros x Hx.
  apply in_map_iff in Hx. destruct Hx as (t & <- & _).
  apply pair_tokens_nonneg.
Qed.

Lemma format_loop_all {E : Type} (keep : string -> string -> E) (L : Z)
      (human_only : bool) (ai_name : string) :
  forall (chat_history : list (string * string)) (cleaned_msgs : list E)
         (tokens_used : Z),
    tokens_used + tokens_of get_num_tokens human_only ai_name chat_history
    <= L ->
    format_loop get_num_tokens keep L human_only ai_name chat_history
      cleaned_msgs tokens_used
    = cleaned_msgs ++ map (kept_entry keep ai_name) chat_history.
Proof.
  induction chat_history as [|t rest IH]; intros cleaned_msgs tokens_used Hfit.
  - simpl. now rewrite app_nil_r.
  - rewrite format_loop_cons. rewrite tokens_of_cons in Hfit.
    pose proof (tokens_of_nonneg human_only ai_name rest).
    destruct (Z.gtb_spec
                (tokens_used + pair_tokens get_num_tokens human_only ai_name t)
                L); [lia|].
    rewrite IH by lia. rewrite <- app_assoc. reflexivity.
Qed.

(** A history whose lines cost no more than the budget in total is
    returned whole: the loop keeps every turn, and the string returned is
    the lines of all the turns, oldest first, separated by blank lines. *)
Theorem format_messages_keeps_all_that_fit :
  forall (chat_history : list (string * string)) (L : Z)
         (human_only : bool) (ai_name : string),
    tokens_of get_num_tokens human_only ai_name chat_history <= L ->
    (forall (E : Type) (keep : string -> string -> E),
        format_loop get_num_tokens keep L human_only ai_name chat_history [] 0
        = map (kept_entry keep ai_name) chat_history) /\
    format_messages get_num_tokens chat_history L human_only ai_name
    = rendered human_only ai_name chat_history /\
    format_messages get_num_tokens chat_history L human_only ai_name
    = described_text human_only ai_name chat_history.
Proof.
  intros chat_history L human_only ai_name Hfit.
  assert (format_messages get_num_tokens chat_history L human_only ai_name
          = rendered human_only ai_name chat_history) as Hall.
  { unfold format_messages, rendered.
    destruct human_only; rewrite format_loop_all by lia; reflexivity. }
  split; [|split].
  - intros E keep. now rewrite format_loop_all by lia.
  - exact Hall.
  - rewrite Hall. apply rendered_as_described.
Qed.

Lemma format_loop_length {E : Type} (keep : string -> string -> E) (L : Z)
      (human_only : bool) (ai_name : string)
      (chat_history : list (string * string)) (cleaned_msgs : list E)
      (tokens_used : Z) :
  (List.length cleaned_msgs
   <= List.length (format_loop get_num_tokens keep L human_only ai_name
                     chat_history cleaned_msgs tokens_used))%nat.
Proof.
  destruct (format_loop_prefix get_num_tokens keep L human_only ai_name
              chat_history cleaned_msgs tokens_used) as (k & _ & -> & _).
  rewrite length_app. lia.
Qed.

Lemma format_loop_modes {E F : Type} (keep : string -> string -> E)
      (keep' : string -> string -> F) (L : Z) (ai_name : string) :
  forall (chat_history : list (string * string))
         (full : list E) (humans : list F) (used_full used_humans : Z),
    used_humans <= used_full ->
    (List.length full <= List.length humans)%nat ->
    (List.length (format_loop get_num_tokens keep L false ai_name
                    chat_history full used_full)
     <= List.length (format_loop get_num_tokens keep' L true ai_name
                       chat_history humans used_humans))%nat.
Proof.
  induction chat_history as [|t rest IH];
    intros full humans used_full used_humans Hused Hlen.
  - exact Hlen.
  - rewrite !format_loop_cons.
    assert (pair_tokens get_num_tokens true ai_name t
            <= pair_tokens get_num_tokens false ai_name t) as Hpair.
    { unfold pair_tokens. simpl.
      pose proof (tokens_nonneg (ai_msg_formatted ai_name (snd t))). lia. }
    destruct (Z.gtb_spec
                (used_full + pair_tokens get_num_tokens false ai_name t) L)
      as [Hover|Hfit].
    + destruct (Z.gtb_spec
                  (used_humans + pair_tokens get_num_tokens true ai_name t) L).
      * exact Hlen.
      * eapply Nat.le_trans; [|apply format_loop_length].
        rewrite length_app. lia.
    + destruct (Z.gtb_spec
                  (used_humans + pair_tokens get_num_tokens true ai_name t) L);
        [lia|].
      apply IH; [lia|]. rewrite !length_app. simpl. lia.
Qed.

(** Under one budget, the human-only rendering keeps at least the turns
    the full rendering keeps: the retrieval query of [chat] never covers
    fewer turns than the conversation text. *)
Theorem human_only_keeps_no_fewer_turns :
  forall (chat_history : list (string * string)) (L : Z) (ai_name : string),
    (List.length
       (format_loop get_num_tokens (fun h a => (h, a)) L false ai_name
          chat_history [] 0)
     <= List.length
          (format_loop get_num_tokens (fun h _ => h) L true ai_name
             chat_history [] 0))%nat.
Proof.
  intros chat_history L ai_name.
  apply format_loop_modes; [lia|simpl; lia].
Qed.

End TrimmingProperties.

Section TrimmingWitnesses.

Import KnowledgeManager.

Lemma per_char_nonneg (s : string) : 0 <= Samples.per_char s.
Proof. unfold Samples.per_char. lia. Qed.

Lemma format_messages_keeps_all_that_fit_witness :
  format_messages Samples.per_char Samples.turns 800 false "AgritechAI"
  = ("Human: When do I sow wheat?" ++ Samples.blank_line
     ++ "AgritechAI: In late autumn." ++ Samples.blank_line
     ++ "Human: And barley?" ++ Samples.blank_line
     ++ "AgritechAI: A few weeks earlier." ++ Samples.blank_line
     ++ "Human: Which fertiliser?" ++ Samples.blank_line
     ++ "AgritechAI: Start with a soil test.")%string.
Proof.
  apply (proj2 (proj2 (format_messages_keeps_all_that_fit Samples.per_char
                         per_char_nonneg Samples.turns 800 false
                         "AgritechAI" ltac:(vm_compute; discriminate)))).
Defined.

Lemma human_only_keeps_no_fewer_turns_witness :
  (List.length
     (format_loop Samples.per_char (fun h a => (h, a)) 60 false "AgritechAI"
        Samples.turns [] 0)
   <= List.length
        (format_loop Samples.per_char (fun h _ => h) 60 true "AgritechAI"
           Samples.turns [] 0))%nat.
Proof.
  apply (human_only_keeps_no_fewer_turns Samples.per_char per_char_nonneg
           Samples.turns 60 "AgritechAI").
Defined.

End TrimmingWitnesses.

Section ReduceProperties.

Import KnowledgeManager.

Variable get_num_tokens : string -> Z.

(** Passages whose total cost is within the budget are all kept, so
    trimming what was trimmed under a budget [D >= 0] changes nothing. *)
Theorem reduce_keeps_all_that_fit :
  (forall (docs : list Document) (D : Z),
      total_tokens get_num_tokens docs <= D ->
      _reduce_tokens_below_limit get_num_tokens docs D = Ok docs)
  /\
  (forall (docs kept : list Document) (D : Z),
      0 <= D ->
      _reduce_tokens_below_limit get_num_tokens docs D = Ok kept ->
      _reduce_tokens_below_limit get_num_tokens kept D = Ok kept).
Proof.
  assert (forall (docs : list Document) (D : Z),
             total_tokens get_num_tokens docs <= D ->
             _reduce_tokens_below_limit get_num_tokens docs D = Ok docs)
    as Hall.
  { intros docs D Hfit.
    rewrite (reduce_longest_prefix get_num_tokens docs D (List.length docs)).
    - now rewrite firstn_all.
    - lia.
    - now rewrite firstn_all.
    - intros j Hj. lia. }
  split; [exact Hall|].
  intros docs kept D HD Hkept.
  destruct (last_satisfying
              (fun j => total_tokens get_num_tokens (firstn j docs) <= D)
              (List.length docs) 0) as (k & Hk & Hfit & Hmax).
  - intros j. lia.
  - lia.
  - simpl. unfold total_tokens. simpl. rewrite sum_nil. exact HD.
  - rewrite (reduce_longest_prefix get_num_tokens docs D k) in Hkept.
    + inversion Hkept; subst kept. now apply Hall.
    + lia.
    + exact Hfit.
    + intros j Hj. specialize (Hmax j Hj). lia.
Qed.

Lemma skipn_nth {A : Type} (xs : list A) (i : nat) (x : A) :
  nth_error xs i = Some x -> skipn i xs = x :: skipn (S i) xs.
Proof.
  revert i. induction xs as [|y xs IH]; intros [|i] H; simpl in *;
    try discriminate.
  - now inversion H.
  - now apply IH.
Qed.

Lemma index_from_end {A : Type} (xs : list A) (j : nat) :
  (j < List.length xs)%nat ->
  Py.index xs (- Z.of_nat j - 1) = nth_error xs (List.length xs - j - 1).
Proof.
  intros Hj. unfold Py.index.
  destruct (Z.leb_spec 0 (- Z.of_nat j - 1)); [lia|].
  destruct (Z.leb_spec (- Z.of_nat (List.length xs)) (- Z.of_nat j - 1));
    [|lia].
  f_equal. lia.
Qed.

Lemma index_below_range {A : Type} (xs : list A) :
  Py.index xs (- Z.of_nat (List.length xs) - 1) = None.
Proof.
  unfold Py.index.
  destruct (Z.leb_spec 0 (- Z.of_nat (List.length xs) - 1)); [lia|].
  destruct (Z.leb_spec (- Z.of_nat (List.length xs))
              (- Z.of_nat (List.length xs) - 1)); [lia|reflexivity].
Qed.

(** The first part of the walk, while [num_docs] is positive. *)
Lemma reduce_loop_to_zero (tokens : list Z) (limit : Z) (d fuel : nat) :
  (d <= List.length tokens)%nat ->
  (forall i, (0 < i <= d)%nat -> Py.sum (firstn i tokens) > limit) ->
  reduce_loop (d + fuel) tokens limit (Z.of_nat d) (Py.sum (firstn d tokens))
  = reduce_loop fuel tokens limit 0 0.
Proof.
  induction d as [|d IH]; intros Hlen Hover.
  - reflexivity.
  - assert (Py.sum (firstn (S d) tokens) > limit) as Hgt
        by (apply Hover; lia).
    change (S d + fuel)%nat with (S (d + fuel)). cbn [reduce_loop].
    destruct (Z.gtb_spec (Py.sum (firstn (S d) tokens)) limit); [|lia].
    replace (Z.of_nat (S d) - 1) with (Z.of_nat d) by lia.
    rewrite index_of_nat.
    destruct (nth_error tokens d) as [t|] eqn:Ht.
    + rewrite (firstn_snoc _ _ _ Ht), sum_app, sum_cons, sum_nil.
      replace (Py.sum (firstn d tokens) + (t + 0) - t)
        with (Py.sum (firstn d tokens)) by lia.
      apply IH; [lia|]. intros i Hi. apply Hover. lia.
    + apply nth_error_None in Ht. lia.
Qed.

(** The second part, below zero: the loop takes costs off from the end
    of the list until the index leaves the list. *)
Lemma reduce_loop_below_zero (tokens : list Z) (limit : Z) (m : nat) :
  forall (fuel j : nat),
    (j + m = List.length tokens)%nat ->
    (m < fuel)%nat ->
    (forall i, (j <= i <= List.length tokens)%nat ->
               - Py.sum (skipn (List.length tokens - i) tokens) > limit) ->
    reduce_loop fuel tokens limit (- Z.of_nat j)
      (- Py.sum (skipn (List.length tokens - j) tokens))
    = Raise (IndexError "list index out of range").
Proof.
  induction m as [|m IH]; intros fuel j Hj Hfuel Hover;
    (destruct fuel as [|fuel]; [lia|]);
    assert (- Py.sum (skipn (List.length tokens - j) tokens) > limit) as Hgt
      by (apply Hover; lia);
    cbn [reduce_loop];
    (destruct (Z.gtb_spec
                 (- Py.sum (skipn (List.length tokens - j) tokens)) limit);
     [|lia]).
  - replace j with (List.length tokens) by lia.
    now rewrite index_below_range.
  - rewrite index_from_end by lia.
    destruct (nth_error tokens (List.length tokens - j - 1)) as [t|] eqn:Ht.
    + replace (- Z.of_nat j - 1) with (- Z.of_nat (S j)) by lia.
      replace (- Py.sum (skipn (List.length tokens - j) tokens) - t)
        with (- Py.sum (skipn (List.length tokens - S j) tokens)).
      * apply IH; [lia|lia|]. intros i Hi. apply Hover. lia.
      * replace (List.length tokens - S j)%nat
          with (List.length tokens - j - 1)%nat by lia.
        rewrite (skipn_nth _ _ _ Ht), sum_cons.
        replace (S (List.length tokens - j - 1))
          with (List.length tokens - j)%nat by lia.
        lia.
    + apply nth_error_None in Ht. lia.
Qed.

Hypothesis tokens_nonneg : forall s : string, 0 <= get_num_tokens s.

(** A budget below minus the total cost of the passages, and so any
    negative budget when no passage was retrieved, ends the routine with
    [IndexError]: the loop counts [num_docs] down past the start of the
    list. *)
Theorem reduce_budget_below_minus_total_raises :
  forall (docs : list Document) (D : Z),
    D < - total_tokens get_num_tokens docs ->
    _reduce_tokens_below_limit get_num_tokens docs D
    = Raise (IndexError "list index out of range").
Proof.
  intros docs D HD.
  unfold _reduce_tokens_below_limit.
  set (tokens := map (doc_tokens get_num_tokens) docs).
  assert (List.length tokens = List.length docs) as Hlen
      by (unfold tokens; apply length_map).
  assert (forall x, In x tokens -> 0 <= x) as Hpos.
  { intros x Hx. unfold tokens in Hx. apply in_map_iff in Hx.
    destruct Hx as (d & <- & _). apply tokens_nonneg. }
  assert (forall i, 0 <= Py.sum (firstn i tokens)) as Hprefix.
  { intros i. apply sum_nonneg. intros x Hx. apply Hpos.
    eapply in_firstn; eauto. }
  assert (forall i, Py.sum (skipn i tokens) <= Py.sum tokens) as Hsuffix.
  { intros i. rewrite <- (firstn_skipn i tokens) at 2. rewrite sum_app.
    specialize (Hprefix i). lia. }
  assert (Py.sum tokens = total_tokens get_num_tokens docs) as Htotal
      by reflexivity.
  rewrite slice_to_of_nat.
  replace (2 * List.length docs + 2)%nat
    with (List.length docs + (List.length docs + 2))%nat by lia.
  rewrite <- Hlen.
  rewrite reduce_loop_to_zero.
  - pose proof (reduce_loop_below_zero tokens D (List.length tokens)
                  (List.length tokens + 2) 0) as Hdown.
    rewrite Nat.sub_0_r, skipn_all in Hdown.
    change (- Z.of_nat 0) with 0 in Hdown.
    change (- Py.sum []) with 0 in Hdown.
    rewrite Hdown; [reflexivity|lia|lia|].
    intros i Hi. specialize (Hsuffix (List.length tokens - i)%nat). lia.
  - lia.
  - intros i Hi. specialize (Hprefix i).
    assert (0 <= Py.sum tokens) by (now apply sum_nonneg). lia.
Qed.

End ReduceProperties.

Lemma reduce_keeps_all_that_fit_witness :
  KnowledgeManager._reduce_tokens_below_limit (Samples.flat 30) Samples.passages 3000
  = Ok Samples.passages /\
  KnowledgeManager._reduce_tokens_below_limit (Samples.flat 30)
    (firstn 2 Samples.passages) 65
  = Ok (firstn 2 Samples.passages).
Proof.
  split.
  - apply (proj1 (reduce_keeps_all_that_fit (Samples.flat 30))
             Samples.passages 3000).
    vm_compute. discriminate.
  - apply (proj2 (reduce_keeps_all_that_fit (Samples.flat 30))
             Samples.passages (firstn 2 Samples.passages) 65).
    + lia.
    + reflexivity.
Defined.

Lemma reduce_budget_below_minus_total_raises_witness :
  KnowledgeManager._reduce_tokens_below_limit Samples.per_char
    Samples.passages (-200)
  = Raise (IndexError "list index out of range").
Proof.
  apply (reduce_budget_below_minus_total_raises Samples.per_char
           per_char_nonneg Samples.passages (-200)).
  vm_compute. reflexivity.
Defined.

(** ** Metadata of ingested documents *)

Section MetadataProperties.

Import KnowledgeManager.

Lemma dict_get_set_same (d : Py.dict) (k v : string) :
  Py.dict_get (Py.dict_set d k v) k = Some v.
Proof.
  induction d as [|[k' v'] d IH]; simpl.
  - now rewrite String.eqb_refl.
  - destruct (String.eqb_spec k' k) as [->|Hne]; simpl.
    + now rewrite String.eqb_refl.
    + destruct (String.eqb_spec k' k); [contradiction|exact IH].
Qed.

Lemma dict_get_set_other (d : Py.dict) (k v k0 : string) :
  k0 <> k -> Py.dict_get (Py.dict_set d k v) k0 = Py.dict_get d k0.
Proof.
  intros Hne. induction d as [|[k' v'] d IH]; simpl.
  - destruct (String.eqb_spec k k0); [congruence|reflexivity].
  - destruct (String.eqb_spec k' k) as [->|Hk]; simpl.
    + destruct (String.eqb_spec k k0); [congruence|reflexivity].
    + destruct (String.eqb_spec k' k0); [reflexivity|exact IH].
Qed.

Lemma dict_update_other (other : Py.dict) :
  forall (d : Py.dict) (k : string),
    ~ In k (map fst other) ->
    Py.dict_get (Py.dict_update d other) k = Py.dict_get d k.
Proof.
  unfold Py.dict_update.
  induction other as [|[k0 v0] other IH]; intros d k Hk; simpl;
    [reflexivity|].
  rewrite IH by (intros H; apply Hk; now right).
  apply dict_get_set_other. intros ->. apply Hk. now left.
Qed.

Lemma dict_update_item (other : Py.dict) :
  forall (d : Py.dict) (k v : string),
    NoDup (map fst other) ->
    In (k, v) other ->
    Py.dict_get (Py.dict_update d other) k = Some v.
Proof.
  induction other as [|[k0 v0] other IH]; intros d k v Hnd Hin;
    [destruct Hin|].
  inversion Hnd as [|? ? Hnotin Hnd']; subst.
  change (Py.dict_update d ((k0, v0) :: other))
    with (Py.dict_update (Py.dict_set d k0 v0) other).
  destruct Hin as [[= -> ->]|Hin].
  - rewrite dict_update_other by exact Hnotin. apply dict_get_set_same.
  - now apply IH.
Qed.

(** [add_metadata_to_docs] returns as many documents, in the same order
    and with the same text; each one then carries every item of the
    given metadata, and keeps its value under every other key. *)
Theorem add_metadata_to_docs_sets_items :
  forall (metadata : Py.dict) (docs : list Document),
    NoDup (map fst metadata) ->
    map page_content (add_metadata_to_docs metadata docs)
    = map page_content docs /\
    Forall2
      (fun doc doc' =>
         (forall k v, In (k, v) metadata ->
                      Py.dict_get (KnowledgeManager.metadata doc') k = Some v) /\
         (forall k, ~ In k (map fst metadata) ->
                    Py.dict_get (KnowledgeManager.metadata doc') k
                    = Py.dict_get (KnowledgeManager.metadata doc) k))
      docs (add_metadata_to_docs metadata docs).
Proof.
  intros metadata docs Hnd. split.
  - unfold add_metadata_to_docs. rewrite map_map. reflexivity.
  - induction docs as [|doc docs IH]; simpl; constructor; [|exact IH].
    simpl. split.
    + intros k v Hin. now apply dict_update_item.
    + intros k Hk. now apply dict_update_other.
Qed.

Lemma add_metadata_to_docs_sets_items_witness :
  map page_content
    (add_metadata_to_docs [("source", "guide.pdf"); ("owner", "u1")]
       Samples.passages)
  = map page_content Samples.passages /\
  Forall2
    (fun doc doc' =>
       (forall k v, In (k, v) [("source", "guide.pdf"); ("owner", "u1")] ->
                    Py.dict_get (KnowledgeManager.metadata doc') k = Some v) /\
       (forall k, ~ In k (map fst [("source", "guide.pdf"); ("owner", "u1")]) ->
                  Py.dict_get (KnowledgeManager.metadata doc') k
                  = Py.dict_get (KnowledgeManager.metadata doc) k))
    Samples.passages
    (add_metadata_to_docs [("source", "guide.pdf"); ("owner", "u1")]
       Samples.passages).
Proof.
  apply (add_metadata_to_docs_sets_items
           [("source", "guide.pdf"); ("owner", "u1")] Samples.passages).
  simpl. constructor.
  - intros [H|[]]. discriminate H.
  - constructor; [intros []|constructor].
Defined.

End MetadataProperties.

(** ** A turn that is answered *)

Section AnsweredTurn.

Variable get_num_tokens : string -> Z.
Variable conversattion_limit : Z.
Variable docs_limit : Z.
Variable query_data :
  string -> string -> outcome (list KnowledgeManager.Document).
Variable arun : string -> string -> string -> outcome string.


End AnsweredTurn.


(** ** The bot's handlers *)

Section HandlerProperties.

Import TelegramBot.

Variable get_num_tokens : string -> Z.
Variable conversattion_limit : Z.
Variable docs_limit : Z.
Variable query_data :
  string -> string -> outcome (list KnowledgeManager.Document).
Variable arun : string -> string -> string -> outcome string.
Variable deliver : string -> outcome unit.
Variable download : Telegram.Voice -> outcome string.
Variable audio_transcribe : string -> outcome Py.dict.

Local Abbreviation chat_of :=
  (AIResponder.knowledge_manager_chat get_num_tokens conversattion_limit
     docs_limit query_data arun).
Local Abbreviation respond :=
  (_generate_and_send_response get_num_tokens conversattion_limit docs_limit
     query_data arun deliver).
Local Abbreviation sorry := "Sorry, I couldn't process that.".

Lemma reply_text_delivered (text : string) (st : state) :
  deliver text = Ok tt ->
  reply_text deliver text st
  = ({| log := log st; sent := sent st ++ [text] |}, Ok tt).
Proof. intros H. unfold reply_text. now rewrite H. Qed.


(** The turn inside the [try], on the log of the bot. *)
Lemma turn_on_log (text user_id : string) (st : state)
      (chat_history : list (string * string)) :
  ChatManager.retrieve_all_messages user_id (log st)
  = (log st, Ok chat_history) ->
  on_log (AIResponder.generate_response get_num_tokens conversattion_limit
            docs_limit query_data arun text user_id) st
  = match chat_of text chat_history with
    | Ok ai_response =>
        ({| log := fst (ChatManager.add_message user_id ai_response text
                          (log st));
            sent := sent st |}, Ok ai_response)
    | Raise e => ({| log := log st; sent := sent st |}, Raise e)
    | Diverge => ({| log := log st; sent := sent st |}, Diverge)
    end.
Proof.
  intros Hhist. unfold on_log.
  rewrite (generate_response_run _ _ _ _ _ _ _ _ _ Hhist).
  destruct (chat_of text chat_history); reflexivity.
Qed.

(** A turn that fails is answered with the fixed apology: the text of
    the error is not sent, the log is as before, and the handler
    returns. *)
Theorem failed_turn_sends_apology :
  forall (user_message user_id : string) (msg : Telegram.Message)
         (st : state) (chat_history : list (string * string)) (e : exn),
    Telegram.from_user msg = Some user_id ->
    ChatManager.retrieve_all_messages user_id (log st)
    = (log st, Ok chat_history) ->
    chat_of user_message chat_history = Raise e ->
    deliver sorry = Ok tt ->
    respond user_message msg st
    = ({| log := log st; sent := sent st ++ [sorry] |}, Ok tt).
Proof.
  intros user_message user_id msg st chat_history e Huser Hhist Hchat Hsorry.
  unfold _generate_and_send_response. rewrite Huser.
  unfold try_except, bind. rewrite (turn_on_log _ _ _ _ Hhist), Hchat.
  now rewrite reply_text_delivered.
Qed.



(** The handler lets no exception out as long as the apology can be
    delivered, whatever the responder and the delivery of the answer
    do. *)
Theorem text_handler_raises_nothing :
  forall (user_message : string) (msg : Telegram.Message) (st : state)
         (e : exn),
    deliver sorry = Ok tt ->
    snd (respond user_message msg st) <> Raise e.
Proof.
  intros user_message msg st e Hsorry.
  unfold _generate_and_send_response.
  destruct (Telegram.from_user msg) as [user_id|].
  - unfold try_except, bind.
    destruct (on_log _ st) as [st1 [ai_response| |]].
    + unfold reply_text at 1.
      destruct (deliver ai_response); simpl; try discriminate.
      rewrite reply_text_delivered by exact Hsorry. discriminate.
    + rewrite reply_text_delivered by exact Hsorry. discriminate.
    + discriminate.
  - rewrite reply_text_delivered by exact Hsorry. discriminate.
Qed.

(** An update without message, without text or with an empty text is
    ignored: nothing is sent and nothing is logged. *)
Theorem handle_update_ignores_no_text :
  forall (update : Telegram.Update) (st : state),
    (Telegram.message update = None \/
     exists msg,
       Telegram.message update = Some msg /\
       (Telegram.text msg = None \/ Telegram.text msg = Some "")) ->
    handle_update get_num_tokens conversattion_limit docs_limit query_data
      arun deliver update st
    = (st, Ok tt).
Proof.
  intros update st [Hnone|(msg & Hmsg & [Htext|Htext])];
    unfold handle_update.
  - now rewrite Hnone.
  - now rewrite Hmsg, Htext.
  - now rewrite Hmsg, Htext.
Qed.

(** A text message is handled as a turn on its text. *)
Lemma handle_update_text (update : Telegram.Update) (msg : Telegram.Message)
      (text : string) (st : state) :
  Telegram.message update = Some msg ->
  Telegram.text msg = Some text ->
  text <> "" ->
  handle_update get_num_tokens conversattion_limit docs_limit query_data
    arun deliver update st
  = respond text msg st.
Proof.
  intros Hmsg Htext Hne. unfold handle_update. rewrite Hmsg, Htext.
  destruct (String.eqb_spec text ""); [contradiction|reflexivity].
Qed.

(** A voice message that is missing or cannot be downloaded gets the
    download apology and nothing else happens: no transcription, no
    turn. *)
Theorem handle_voice_download_failed :
  forall (msg : Telegram.Message) (st : state),
    (Telegram.voice msg = None \/
     exists voice e,
       Telegram.voice msg = Some voice /\ download voice = Raise e) ->
    deliver "Sorry, I couldn't download the voice message." = Ok tt ->
    handle_voice get_num_tokens conversattion_limit docs_limit query_data
      arun deliver download audio_transcribe msg st
    = ({| log := log st;
          sent := sent st
                  ++ ["Sorry, I couldn't download the voice message."] |},
       Ok tt).
Proof.
  intros msg st Hvoice Hsent.
  unfold handle_voice, bind, _download_voice.
  destruct Hvoice as [Hnone|(voice & e & Hvoice & Hdown)].
  - rewrite Hnone. unfold ret. simpl.
    now rewrite reply_text_delivered.
  - rewrite Hvoice, Hdown. unfold ret. simpl.
    now rewrite reply_text_delivered.
Qed.

(** A voice message whose transcription raises or comes back empty gets
    the apology for that, and no turn is made of it. *)
Theorem handle_voice_not_understood :
  forall (msg : Telegram.Message) (st : state) (voice : Telegram.Voice)
         (audio_file_path : string),
    Telegram.voice msg = Some voice ->
    download voice = Ok audio_file_path ->
    audio_file_path <> "" ->
    ((exists e, audio_transcribe audio_file_path = Raise e) \/
     audio_transcribe audio_file_path = Ok []) ->
    deliver "Sorry, I couldn't understand the voice message." = Ok tt ->
    handle_voice get_num_tokens conversattion_limit docs_limit query_data
      arun deliver download audio_transcribe msg st
    = ({| log := log st;
          sent := sent st
                  ++ ["Sorry, I couldn't understand the voice message."] |},
       Ok tt).
Proof.
  intros msg st voice audio_file_path Hvoice Hdown Hpath Htrans Hsent.
  unfold handle_voice, bind, _download_voice.
  rewrite Hvoice, Hdown. unfold ret.
  destruct (String.eqb_spec audio_file_path ""); [contradiction|].
  unfold lift, transcribe.
  destruct Htrans as [(e & ->)| ->]; now rewrite reply_text_delivered.
Qed.

End HandlerProperties.

Section HandlerWitnesses.

Import TelegramBot Samples.

Lemma failed_turn_sends_apology_witness :
  _generate_and_send_response per_char 800 3000 vector_store model_down
    deliver_ok "When do I sow wheat?" text_message bot_state
  = ({| log := log bot_state;
        sent := sent bot_state ++ ["Sorry, I couldn't process that."] |},
     Ok tt).
Proof.
  apply (failed_turn_sends_apology per_char 800 3000 vector_store model_down
           deliver_ok "When do I sow wheat?" "u1" text_message bot_state
           [("hi", "hello")] (CollaboratorError "model unavailable"));
    reflexivity.
Defined.



Lemma text_handler_raises_nothing_witness :
  snd (_generate_and_send_response per_char 800 3000 vector_store_down model
         deliver_sorry_only "When do I sow wheat?" text_message bot_state)
  <> Raise (CollaboratorError "vector store unavailable").
Proof.
  apply (text_handler_raises_nothing per_char 800 3000 vector_store_down
           model deliver_sorry_only "When do I sow wheat?" text_message
           bot_state (CollaboratorError "vector store unavailable")).
  reflexivity.
Defined.

Lemma handle_update_ignores_no_text_witness :
  handle_update per_char 800 3000 vector_store model deliver_ok
    {| Telegram.message :=
         Some {| Telegram.text := Some "";
                 Telegram.from_user := Some "u1";
                 Telegram.voice := None |} |}
    bot_state
  = (bot_state, Ok tt).
Proof.
  apply (handle_update_ignores_no_text per_char 800 3000 vector_store model
           deliver_ok).
  right. eexists. split; [reflexivity|]. right. reflexivity.
Defined.

Lemma handle_voice_download_failed_witness :
  handle_voice per_char 800 3000 vector_store model deliver_ok download_down
    whisper voice_message bot_state
  = ({| log := log bot_state;
        sent := sent bot_state
                ++ ["Sorry, I couldn't download the voice message."] |},
     Ok tt).
Proof.
  apply (handle_voice_download_failed per_char 800 3000 vector_store model
           deliver_ok download_down whisper voice_message bot_state).
  - right. exists {| Telegram.file_id := "AwACAgQ" |}.
    exists (CollaboratorError "timed out"). split; reflexivity.
  - reflexivity.
Defined.

Lemma handle_voice_not_understood_witness :
  handle_voice per_char 800 3000 vector_store model deliver_ok download_ok
    whisper_down voice_message bot_state
  = ({| log := log bot_state;
        sent := sent bot_state
                ++ ["Sorry, I couldn't understand the voice message."] |},
     Ok tt).
Proof.
  apply (handle_voice_not_understood per_char 800 3000 vector_store model
           deliver_ok download_ok whisper_down voice_message bot_state
           {| Telegram.file_id := "AwACAgQ" |} "/tmp/tmpk3v9.ogg").
  - reflexivity.
  - reflexivity.
  - discriminate.
  - left. exists (CollaboratorError "rate limited"). reflexivity.
  - reflexivity.
Defined.

(** A voice message that is understood is answered like the text. *)
Example handle_voice_understood :
  handle_voice per_char 800 3000 vector_store model deliver_ok download_ok
    whisper voice_message bot_state
  = _generate_and_send_response per_char 800 3000 vector_store model
      deliver_ok "When do I sow wheat?" voice_message bot_state.
Proof. reflexivity. Qed.

End HandlerWitnesses.
